(** * DBexercise: momentum long/short backtest -- shallow embedding

    The Python program is a pandas pipeline

      prices -> signal -> rank -> long/short -> weights -> daily weights -> PnL

    ([signal_generator.py], [portfolio_generator.py], [backtesting.py]),
    fed by the reader of [data_reader.py] and driven by the script [run.py].

    Tables.  A [DataFrame] is modelled row-major: an index of timestamps, a
    list of column labels and one list of cells per timestamp.  The data is
    daily, so a timestamp is a day number (days since 1970-01-01).  The
    frames that the program combines carry the same index and columns, so
    the alignment of labels is positional.

    pandas.  The pandas/numpy operations the program calls ([pct_change],
    [rolling(..).mean()], [resample(..).first()], [rank], [np.where],
    [reindex(method='bfill')], [cumprod], [sum]) are modelled in module [pd]
    by their documented behaviour, including the treatment of missing values
    (NaN) and the defaults the program relies on.

    Numbers.  A float64 cell is modelled as an exact rational extended with
    NaN and the two infinities: rounding and overflow are abstracted away,
    the NaN/infinity behaviour of comparisons and of division by zero is
    kept.

    Effects.  Exceptions are modelled by a [result] type.  [execute] gives
    the PnL tables of a run; [execute_exporting] adds its effects: the files
    written (the figure and the CSV export), in order, and the attribute
    [export_data] of the generator.  The file system and the CSV parser
    behind [read] are a parameter of the reader. *)

From Stdlib Require Import QArith Qcanon ZArith Lia Permutation Sorted.
From stdpp Require Import base decidable numbers list sorting strings gmap.

Local Open Scope Z_scope.

(** ** Extended rationals standing for float64 *)

Inductive float64 : Type :=
  | NaN
  | NegInf
  | Fin (q : Qc)
  | PosInf.

Global Instance float64_eq_dec : EqDecision float64.
Proof. solve_decision. Defined.

Module F.

Definition of_Z (z : Z) : float64 := Fin (Qc_of_Z z).
Definition of_nat (n : nat) : float64 := of_Z (Z.of_nat n).
Definition of_Q (q : Q) : float64 := Fin (Q2Qc q).

Definition isnan (x : float64) : bool :=
  match x with NaN => true | _ => false end.

Definition notna (x : float64) : bool := negb (isnan x).

Definition isfinite (x : float64) : bool :=
  match x with Fin _ => true | _ => false end.

(** Sign of a value that is not NaN; a rational zero stands for +0.0. *)
Definition sgn (x : float64) : Z :=
  match x with
  | NaN => 0
  | NegInf => -1
  | PosInf => 1
  | Fin q => if decide (0 < q)%Qc then 1
             else if decide (q < 0)%Qc then -1 else 0
  end.

Definition of_sign (s : Z) : float64 :=
  match s with
  | Z0 => NaN
  | Zpos _ => PosInf
  | Zneg _ => NegInf
  end.

Definition neg (x : float64) : float64 :=
  match x with
  | NaN => NaN
  | NegInf => PosInf
  | PosInf => NegInf
  | Fin q => Fin (- q)%Qc
  end.

Definition add (x y : float64) : float64 :=
  match x, y with
  | NaN, _ | _, NaN => NaN
  | Fin a, Fin b => Fin (a + b)%Qc
  | PosInf, NegInf | NegInf, PosInf => NaN
  | PosInf, _ | _, PosInf => PosInf
  | NegInf, _ | _, NegInf => NegInf
  end.

Definition sub (x y : float64) : float64 := add x (neg y).

Definition mul (x y : float64) : float64 :=
  match x, y with
  | NaN, _ | _, NaN => NaN
  | Fin a, Fin b => Fin (a * b)%Qc
  | _, _ => of_sign (sgn x * sgn y)
  end.

(** IEEE division: [a / 0] is an infinity of the sign of [a], [0 / 0] and
    [inf / inf] are NaN, a finite value over an infinity is zero. *)
Definition div (x y : float64) : float64 :=
  match x, y with
  | NaN, _ | _, NaN => NaN
  | Fin a, Fin b =>
      if decide (b = 0%Qc) then of_sign (sgn x) else Fin (a / b)%Qc
  | Fin _, _ => Fin 0%Qc
  | _, Fin b => if decide (b < 0)%Qc then neg x else x
  | _, _ => NaN
  end.

(** Comparisons are false as soon as one side is NaN. *)
Definition ltb (x y : float64) : bool :=
  match x, y with
  | NaN, _ | _, NaN => false
  | Fin a, Fin b => bool_decide (a < b)%Qc
  | NegInf, NegInf => false
  | NegInf, _ => true
  | _, NegInf => false
  | PosInf, _ => false
  | _, PosInf => true
  end.

Definition eqb (x y : float64) : bool :=
  match x, y with
  | NaN, _ | _, NaN => false
  | _, _ => bool_decide (x = y)
  end.

Definition leb (x y : float64) : bool := ltb x y || eqb x y.

Definition gtb (x y : float64) : bool := ltb y x.

Definition zero : float64 := Fin 0%Qc.
Definition one : float64 := Fin 1%Qc.

End F.

Arguments F.add : simpl never.
Arguments F.sub : simpl never.
Arguments F.mul : simpl never.
Arguments F.div : simpl never.
Arguments F.ltb : simpl never.
Arguments F.leb : simpl never.
Arguments F.of_Z : simpl never.
Arguments F.of_nat : simpl never.
Arguments F.of_Q : simpl never.

Declare Scope float64_scope.
Delimit Scope float64_scope with F.
Bind Scope float64_scope with float64.
Infix "+" := F.add : float64_scope.
Infix "-" := F.sub : float64_scope.
Infix "*" := F.mul : float64_scope.
Infix "/" := F.div : float64_scope.
Infix "<?" := F.ltb : float64_scope.
Infix "<=?" := F.leb : float64_scope.
Infix ">?" := F.gtb : float64_scope.

(** ** Tables *)

(** A timestamp is a calendar day, counted from 1970-01-01. *)
Abbreviation Timestamp := Z (only parsing).

(** [pandas.DataFrame]: the index is a [DatetimeIndex], the rows hold one
    cell per column label. *)
Record DataFrame (A : Type) : Type := mkDataFrame {
  index : list Timestamp;
  columns : list string;
  values : list (list A)
}.
Arguments mkDataFrame {A} _ _ _.
Arguments index {A} _.
Arguments columns {A} _.
Arguments values {A} _.

(** [pandas.Series] indexed by timestamps (the result of [sum(axis=1)]). *)
Record Series (A : Type) : Type := mkSeries {
  s_index : list Timestamp;
  s_values : list A
}.
Arguments mkSeries {A} _ _.
Arguments s_index {A} _.
Arguments s_values {A} _.

Abbreviation Row := (list float64) (only parsing).

(** [df.shape[1]] *)
Definition ncols {A} (df : DataFrame A) : nat := length (columns df).

(** A frame is well formed when it has one row per timestamp and one cell
    per column in every row. *)
Definition wf_frame {A} (df : DataFrame A) : Prop :=
  length (values df) = length (index df) ∧
  Forall (λ r, length r = ncols df) (values df).

(** Cell at row position [i] and column position [j]. *)
Definition cell {A} (df : DataFrame A) (i j : nat) : option A :=
  values df !! i ≫= (.!! j).

(** The values of column [j], top to bottom; a missing cell reads as NaN. *)
Definition column (j : nat) (rows : list Row) : list float64 :=
  (λ r, default NaN (r !! j)) <$> rows.

(** Apply a column reduction to every column of a block of rows. *)
Definition per_column (f : list float64 → float64) (n : nat) (rows : list Row) : Row :=
  (λ j, f (column j rows)) <$> seq 0 n.

Definition nan_row (n : nat) : Row := replicate n NaN.

(** ** pandas operations used by the program *)

Module pd.

(** *** [DataFrame.pct_change()]: pad missing values forward, then
    [data / data.shift(1) - 1]; the first row is NaN. *)

Definition pad_row (last cur : Row) : Row :=
  zip_with (λ l c, if F.isnan c then l else c) last cur.

Fixpoint ffill_from (last : Row) (rows : list Row) : list Row :=
  match rows with
  | [] => []
  | r :: rs => let r' := pad_row last r in r' :: ffill_from r' rs
  end.

Definition ffill (rows : list Row) : list Row :=
  match rows with
  | [] => []
  | r :: rs => r :: ffill_from r rs
  end.

Definition shift1 (n : nat) (rows : list Row) : list Row :=
  take (length rows) (nan_row n :: rows).

Definition pct_row (cur prev : Row) : Row :=
  zip_with (λ c p, (c / p - F.one)%F) cur prev.

Definition pct_change (df : DataFrame float64) : DataFrame float64 :=
  let data := ffill (values df) in
  mkDataFrame (index df) (columns df)
    (zip_with pct_row data (shift1 (ncols df) data)).

(** *** [df.rolling('<n>d').mean()]: the window of row [i] holds the rows
    whose timestamp lies in [(t_i - n, t_i]]; with an offset window
    [min_periods] defaults to 1, so the mean is taken over the defined
    observations of the window and is NaN only when there is none. *)

Definition fsum (xs : list float64) : float64 := foldl F.add F.zero xs.

Definition dropna (xs : list float64) : list float64 :=
  filter (λ x, F.notna x) xs.

Definition nanmean (xs : list float64) : float64 :=
  match dropna xs with
  | [] => NaN
  | ys => (fsum ys / F.of_nat (length ys))%F
  end.

Definition window_rows (n : Z) (idx : list Timestamp) (rows : list Row)
    (i : nat) (t : Timestamp) : list Row :=
  (filter (λ p, t - n < p.1) (take (S i) (zip idx rows))).*2.

Definition rolling_mean (n : Z) (df : DataFrame float64) : DataFrame float64 :=
  mkDataFrame (index df) (columns df)
    (imap (λ i t, per_column nanmean (ncols df)
                    (window_rows n (index df) (values df) i t))
          (index df)).

(** *** [df.resample(freq).first()]: one row per period from the period of
    the first timestamp to the period of the last one, labelled by the
    period's label; a cell is the first defined value of its column within
    the period, NaN when the period holds none. *)

Record Frequency : Type := mkFrequency {
  bin : Timestamp → Z;
  label : Z → Timestamp;
  label_mono : ∀ a b, a < b → label a < label b
}.

Definition first_valid (xs : list float64) : float64 :=
  default NaN (head (dropna xs)).

Definition bins (freq : Frequency) (idx : list Timestamp) : list Z :=
  match idx, last idx with
  | t0 :: _, Some t1 => seqZ (bin freq t0) (bin freq t1 - bin freq t0 + 1)
  | _, _ => []
  end.

Definition group (freq : Frequency) (idx : list Timestamp) (rows : list Row)
    (b : Z) : list Row :=
  (filter (λ p, bin freq p.1 = b) (zip idx rows)).*2.

Definition resample_first (freq : Frequency) (df : DataFrame float64)
    : DataFrame float64 :=
  let bs := bins freq (index df) in
  mkDataFrame (label freq <$> bs) (columns df)
    ((λ b, per_column first_valid (ncols df)
             (group freq (index df) (values df) b)) <$> bs).

(** *** [df.rank(axis=1, ascending=False, method='first')]: the defined
    cells of a row are sorted by decreasing value with a stable sort, and
    a cell's rank is its position in that order, counted from 1; NaN
    cells keep NaN ([na_option='keep']). *)

Abbreviation Key := (nat * float64)%type (only parsing).

Fixpoint insert_desc (a : Key) (l : list Key) : list Key :=
  match l with
  | [] => [a]
  | b :: l' => if (b.2 >? a.2)%F then b :: insert_desc a l' else a :: l
  end.

Definition keys (row : Row) : list Key :=
  filter (λ p, F.notna p.2) (imap pair row).

Definition argsort_desc (row : Row) : list Key :=
  foldr insert_desc [] (keys row).

Definition position (j : nat) (order : list Key) : option nat :=
  fst <$> list_find (λ p, p.1 = j) order.

Definition rank_row (row : Row) : Row :=
  let order := argsort_desc row in
  imap (λ j _, match position j order with
               | Some pos => F.of_nat (S pos)
               | None => NaN
               end) row.

Definition rank_desc_first (df : DataFrame float64) : DataFrame float64 :=
  mkDataFrame (index df) (columns df) (rank_row <$> values df).

(** *** [df.reindex(target, method='bfill')]: a target timestamp takes the
    row of the first source label at or after it, NaN when there is none
    (the source index is increasing). *)

Definition bfill_row (src : DataFrame float64) (t : Timestamp) : Row :=
  match list_find (λ p, t ≤ p.1) (zip (index src) (values src)) with
  | Some (_, (_, r)) => r
  | None => nan_row (ncols src)
  end.

Definition reindex_bfill (src : DataFrame float64) (target : list Timestamp)
    : DataFrame float64 :=
  mkDataFrame target (columns src) (bfill_row src <$> target).

(** *** Elementwise arithmetic.  The frames combined by the program carry
    the same index and columns, so label alignment is positional. *)

Definition map_cells {A B} (f : A → B) (df : DataFrame A) : DataFrame B :=
  mkDataFrame (index df) (columns df) ((λ r : list A, f <$> r) <$> values df).

Definition zip_cells {A B C} (f : A → B → C) (x : DataFrame A)
    (y : DataFrame B) : DataFrame C :=
  mkDataFrame (index x) (columns x) (zip_with (zip_with f) (values x) (values y)).

(** *** [df.cumprod()] ([skipna=True]): a NaN cell stays NaN and does not
    enter the running product of its column. *)

Definition cumprod_step (acc r : Row) : Row :=
  zip_with (λ a x, if F.isnan x then a else (a * x)%F) acc r.

Definition cumprod_out (acc r : Row) : Row :=
  zip_with (λ a x, if F.isnan x then NaN else a) acc r.

Fixpoint cumprod_from (acc : Row) (rows : list Row) : list Row :=
  match rows with
  | [] => []
  | r :: rs =>
      let acc' := cumprod_step acc r in
      cumprod_out acc' r :: cumprod_from acc' rs
  end.

Definition cumprod (df : DataFrame float64) : DataFrame float64 :=
  mkDataFrame (index df) (columns df)
    (cumprod_from (replicate (ncols df) F.one) (values df)).

(** *** [df.sum(axis=1)] ([skipna=True], [min_count=0]). *)

Definition nansum (xs : list float64) : float64 := fsum (dropna xs).

Definition sum_axis1 (df : DataFrame float64) : Series float64 :=
  mkSeries (index df) (nansum <$> values df).

End pd.

(** ** The calendar behind the default rebalance period ['1M'] (month end) *)

Module calendar.

(** Months are numbered from March of year 0 of the proleptic Gregorian
    calendar, so that the leap day closes a year of twelve months. *)

(** Day number of the first day of month [m]. *)
Definition month_start (m : Z) : Timestamp :=
  let y := m `div` 12 in
  let mp := m `mod` 12 in
  365 * y + y `div` 4 - y `div` 100 + y `div` 400
    + (153 * mp + 2) `div` 5 - 719468.

(** Month number of the day [t]. *)
Definition month_of (t : Timestamp) : Z :=
  let z := t + 719468 in
  let era := z `div` 146097 in
  let doe := z `mod` 146097 in
  let yoe := (doe - doe `div` 1460 + doe `div` 36524 - doe `div` 146096) `div` 365 in
  let doy := doe - (365 * yoe + yoe `div` 4 - yoe `div` 100) in
  12 * (yoe + era * 400) + (5 * doy + 2) `div` 153.

Definition month_end (m : Z) : Timestamp := month_start (m + 1) - 1.

(** The pandas frequency ['1M']: calendar months, labelled by their last
    day; the labels of successive months increase. *)
Program Definition M : pd.Frequency := pd.mkFrequency month_of month_end _.
Next Obligation.
  assert (Hstep : ∀ a, month_start a < month_start (a + 1)).
  { intros a. unfold month_start.
    assert (Hmp : 0 ≤ a `mod` 12 < 12) by (apply Z.mod_pos_bound; lia).
    destruct (decide (a `mod` 12 = 11)) as [H11|H11].
    - assert ((a + 1) `div` 12 = a `div` 12 + 1 ∧ (a + 1) `mod` 12 = 0) as [-> ->]
        by (Z.div_mod_to_equations; lia).
      rewrite H11. Z.div_mod_to_equations. lia.
    - assert ((a + 1) `div` 12 = a `div` 12 ∧ (a + 1) `mod` 12 = a `mod` 12 + 1)
        as [-> ->] by (Z.div_mod_to_equations; lia).
      generalize dependent (a `mod` 12). intros mp ? ?.
      generalize (a `div` 12). intros y.
      Z.div_mod_to_equations. lia. }
  intros a b Hab. unfold month_end.
  assert (H : ∀ n : nat, month_start (a + 1) < month_start (a + 1 + Z.of_nat (S n))).
  { induction n as [|n IH].
    - apply Hstep.
    - etrans; [exact IH|].
      replace (a + 1 + Z.of_nat (S (S n))) with (a + 1 + Z.of_nat (S n) + 1) by lia.
      apply Hstep. }
  specialize (H (Z.to_nat (b - a - 1))).
  replace (a + 1 + Z.of_nat (S (Z.to_nat (b - a - 1)))) with (b + 1) in H by lia.
  lia.
Qed.

End calendar.

(** ** Exceptions *)

Inductive exn : Type :=
  | Exception (class_name : string) (missing_params : gset string)
  | KeyError (key : string).

Inductive result (A : Type) : Type :=
  | Ok (a : A)
  | Raise (e : exn).
Arguments Ok {A} _.
Arguments Raise {A} _.

Global Instance result_ret : MRet result := λ A, Ok.
Global Instance result_bind : MBind result := λ A B f m,
  match m with
  | Ok a => f a
  | Raise e => Raise e
  end.

(** ** signal_generator.py *)

Record SignalGeneratorConfig : Type := mkSignalGeneratorConfig {
  params : gmap string Z
}.

(** What a subclass of the abstract [SignalGenerator] supplies. *)
Record SignalGeneratorClass : Type := mkSignalGeneratorClass {
  __name__ : string;
  _required_params : gset string;
  _prices_to_signal :
    SignalGeneratorConfig → DataFrame float64 → result (DataFrame float64)
}.

Record SignalGenerator : Type := mkSignalGenerator {
  __class__ : SignalGeneratorClass;
  _cfg : SignalGeneratorConfig
}.

Definition _validate_config_params (self : SignalGenerator) : result () :=
  let missing_params :=
    _required_params (__class__ self) ∖ dom (params (_cfg self)) in
  if decide (missing_params = ∅) then Ok ()
  else Raise (Exception (__name__ (__class__ self)) missing_params).

(** [SignalGenerator.__init__] *)
Definition new_SignalGenerator (cls : SignalGeneratorClass)
    (generator_config : SignalGeneratorConfig) : result SignalGenerator :=
  let self := mkSignalGenerator cls generator_config in
  _ ← _validate_config_params self;
  Ok self.

Definition generate (self : SignalGenerator) (prices_df : DataFrame float64)
    : result (DataFrame float64) :=
  _prices_to_signal (__class__ self) (_cfg self) prices_df.

(** [MomentumSignalGenerator._prices_to_signal]: the window is
    ['<rolling_avg_days>d'], a duration in days. *)
Definition Momentum_prices_to_signal (cfg : SignalGeneratorConfig)
    (prices_df : DataFrame float64) : result (DataFrame float64) :=
  match params cfg !! "rolling_avg_days" with
  | None => Raise (KeyError "rolling_avg_days")
  | Some window => Ok (pd.rolling_mean window (pd.pct_change prices_df))
  end.

Definition MomentumSignalGenerator : SignalGeneratorClass :=
  mkSignalGeneratorClass "MomentumSignalGenerator" {["rolling_avg_days"]}
    Momentum_prices_to_signal.

(** ** portfolio_generator.py *)

(** [WeightedPortfolioGenerator]; the abstract static method
    [_assign_weights] is a field filled in by the subclass. *)
Record WeightedPortfolioGenerator : Type := mkWeightedPortfolioGenerator {
  _signal_generator : SignalGenerator;
  _rebalance_period : pd.Frequency;
  _longshort_split : float64;
  _assign_weights : DataFrame Z → DataFrame float64
}.

(** The signal at the start of each period (the local [monthly_signal] of
    [_rank_signals]). *)
Definition monthly_signal (self : WeightedPortfolioGenerator)
    (signal_df : DataFrame float64) : DataFrame float64 :=
  pd.resample_first (_rebalance_period self) signal_df.

Definition _rank_signals (self : WeightedPortfolioGenerator)
    (signal_df : DataFrame float64) : DataFrame float64 :=
  pd.rank_desc_first (monthly_signal self signal_df).

(** One cell of [np.where(rank_df <= cutoff, 1, -1)]. *)
Definition longshort_cell (cutoff rank : float64) : Z :=
  if (rank <=? cutoff)%F then 1 else -1.

Definition _assign_longshort (self : WeightedPortfolioGenerator)
    (rank_df : DataFrame float64) : DataFrame Z :=
  let cutoff := (F.of_nat (ncols rank_df) * _longshort_split self)%F in
  pd.map_cells (longshort_cell cutoff) rank_df.

(** The tables computed by [generate_weights]: those it keeps in
    [export_data] when [save_for_exporting] is set, and the period-level
    weights. *)
Record Stages : Type := mkStages {
  signal_df : DataFrame float64;
  rank_df : DataFrame float64;
  longshort_portfolios : DataFrame Z;
  weights : DataFrame float64;
  daily_weights : DataFrame float64
}.

Definition stages (self : WeightedPortfolioGenerator)
    (prices_df : DataFrame float64) : result Stages :=
  signal_df ← generate (_signal_generator self) prices_df;
  let rank_df := _rank_signals self signal_df in
  let longshort_portfolios := _assign_longshort self rank_df in
  let weights := _assign_weights self longshort_portfolios in
  let daily_weights := pd.reindex_bfill weights (index prices_df) in
  Ok (mkStages signal_df rank_df longshort_portfolios weights daily_weights).

Definition generate_weights (self : WeightedPortfolioGenerator)
    (prices_df : DataFrame float64) : result (DataFrame float64) :=
  s ← stages self prices_df;
  Ok (daily_weights s).

(** [EqualWeightedPortfolioGenerator._assign_weights], one row (all its
    operations work row by row): [(longshort > 0).sum(axis=1)] counts the
    long cells, [1 / count] is a float division, [np.where] picks the long
    or the short product cell by cell ([where_cell]). *)
Definition where_cell (long_leg_weights short_leg_weights : float64) (x : Z)
    : float64 :=
  if bool_decide (0 < x) then (F.of_Z x * long_leg_weights)%F
  else (F.of_Z x * short_leg_weights)%F.

Definition equal_weights_row (longshort : list Z) : Row :=
  let long_leg_weights :=
    (F.one / F.of_nat (length (filter (λ x, 0 < x) longshort)))%F in
  let short_leg_weights :=
    (F.one / F.of_nat (length (filter (λ x, x < 0) longshort)))%F in
  where_cell long_leg_weights short_leg_weights <$> longshort.

Definition EqualWeighted_assign_weights (longshort : DataFrame Z)
    : DataFrame float64 :=
  mkDataFrame (index longshort) (columns longshort)
    (equal_weights_row <$> values longshort).

(** [EqualWeightedPortfolioGenerator(signal_generator, rebalance_period, longshort_split)] *)
Definition EqualWeightedPortfolioGenerator (signal_generator : SignalGenerator)
    (rebalance_period : pd.Frequency) (longshort_split : float64)
    : WeightedPortfolioGenerator :=
  mkWeightedPortfolioGenerator signal_generator rebalance_period
    longshort_split EqualWeighted_assign_weights.

(** ** backtesting.py *)

Record WeightedPortfolioBacktester : Type := mkWeightedPortfolioBacktester {
  _portfolio_generator : WeightedPortfolioGenerator;
  _prices_df : DataFrame float64
}.

Definition _get_pnls (self : WeightedPortfolioBacktester)
    (daily_weights : DataFrame float64) : DataFrame float64 * Series float64 :=
  let assets_daily_pct_change := pd.pct_change (_prices_df self) in
  let asset_pnls :=
    pd.map_cells (λ x, (x - F.one)%F)
      (pd.cumprod
         (pd.map_cells (λ x, (F.one + x)%F)
            (pd.zip_cells F.mul daily_weights assets_daily_pct_change))) in
  let total_pnl := pd.sum_axis1 asset_pnls in
  (asset_pnls, total_pnl).

(** [execute], without the plot and the CSV export: the PnL tables it computes. *)
Definition execute (self : WeightedPortfolioBacktester)
    : result (DataFrame float64 * Series float64) :=
  daily_weights ← generate_weights (_portfolio_generator self) (_prices_df self);
  Ok (_get_pnls self daily_weights).

(** ** Decidable equality of tables and results *)

Global Instance DataFrame_eq_dec `{EqDecision A} : EqDecision (DataFrame A).
Proof. solve_decision. Defined.

Global Instance Series_eq_dec `{EqDecision A} : EqDecision (Series A).
Proof. solve_decision. Defined.

Global Instance exn_eq_dec : EqDecision exn.
Proof. solve_decision. Defined.

Global Instance result_eq_dec `{EqDecision A} : EqDecision (result A).
Proof. solve_decision. Defined.

Global Instance Stages_eq_dec : EqDecision Stages.
Proof. solve_decision. Defined.

Global Instance pnls_eq_dec : EqDecision (DataFrame float64 * Series float64).
Proof. solve_decision. Defined.

(** Closed equalities between tables are settled by evaluation. *)
Ltac by_evaluation := apply (bool_decide_unpack _); vm_compute; exact I.

(** ** Vocabulary of the specification *)

(** *** Legs and weights *)

(** A leg indicator row and a long/short table, as [_assign_longshort]
    produces them. *)
Definition leg_row (ls : list Z) : Prop := Forall (λ x, x = 1 ∨ x = -1) ls.

Definition leg_table (longshort : DataFrame Z) : Prop :=
  Forall leg_row (values longshort).

(** Number of long and of short cells of a row. *)
Definition n_long (ls : list Z) : nat := length (filter (λ x, 0 < x) ls).
Definition n_short (ls : list Z) : nat := length (filter (λ x, x < 0) ls).

(** The weight of a long and of a short cell. *)
Definition long_weight (ls : list Z) : Qc :=
  (Qc_of_Z 1 * (1 / Qc_of_Z (Z.of_nat (n_long ls))))%Qc.
Definition short_weight (ls : list Z) : Qc :=
  (Qc_of_Z (-1) * (1 / Qc_of_Z (Z.of_nat (n_short ls))))%Qc.

(** Sum of the positive and of the negative entries of a weight row. *)
Definition sum_positive (w : Row) : float64 :=
  pd.fsum (filter (λ x, (F.zero <? x)%F) w).

Definition sum_negative (w : Row) : float64 :=
  pd.fsum (filter (λ x, (x <? F.zero)%F) w).

(** [x] lies within [tol] of [target]. *)
Definition within (tol : Q) (x target : float64) : Prop :=
  match x, target with
  | Fin a, Fin b => (- Q2Qc tol ≤ a - b ∧ a - b ≤ Q2Qc tol)%Qc
  | _, _ => False
  end.

(** *** Signals and ranks *)

(** A valid price table: well formed, every price defined and non-zero. *)
Definition is_price (p : float64) : Prop := F.isfinite p ∧ p ≠ F.zero.

Definition valid_prices (prices_df : DataFrame float64) : Prop :=
  wf_frame prices_df ∧ Forall (Forall is_price) (values prices_df).

(** A row without any defined signal; a resampled signal without any valid
    row. *)
Definition all_undefined (row : Row) : Prop := Forall (λ x, x = NaN) row.

Definition zero_valid_rows (monthly : DataFrame float64) : Prop :=
  Forall all_undefined (values monthly).

(** [a] comes before [b] in the ranking: a larger value, or the same value
    in an earlier column. *)
Definition before (a b : nat * float64) : Prop :=
  (b.2 <? a.2)%F ∨ (a.2 = b.2 ∧ (a.1 < b.1)%nat).

(** Position of column [j] in the ranking order of a row. *)
Definition column_position (row : list float64) (j : nat) : nat :=
  default 0%nat (pd.position j (pd.argsort_desc row)).

(** *** Profit and loss *)

(** The table of daily growth factors [1 + W * r], [r] the percent change
    of the prices. *)
Definition growth_factors (prices_df daily_weights : DataFrame float64)
    : DataFrame float64 :=
  pd.map_cells (λ x, (F.one + x)%F)
    (pd.zip_cells F.mul daily_weights (pd.pct_change prices_df)).

(** Product of a list of factors, in order. *)
Definition product (xs : list float64) : float64 := foldl F.mul F.one xs.

(** The factors of asset [a] on the rows up to [t]. *)
Definition factors_until (factors : DataFrame float64) (t a : nat) : list float64 :=
  take (S t) (column a (values factors)).

(** ** Test data *)

(** A momentum signal generator as [run.py] builds it, with a window of
    [days] days, and the default portfolio generator around it (monthly
    rebalancing, split 0.5). *)
Definition momentum_config (days : Z) : SignalGeneratorConfig :=
  mkSignalGeneratorConfig {["rolling_avg_days" := days]}.

Definition momentum (days : Z) : SignalGenerator :=
  mkSignalGenerator MomentumSignalGenerator (momentum_config days).

Definition default_portfolio (days : Z) : WeightedPortfolioGenerator :=
  EqualWeightedPortfolioGenerator (momentum days) calendar.M (F.of_Q (1 # 2)).

(** The literal example of the specification: one rebalance row dated
    2000-01-01 (day 10957), its long/short row and its weights. *)
Definition example_monthly_signal : DataFrame float64 :=
  mkDataFrame [10957] ["Asset1"; "Asset2"; "Asset3"]
    [[F.of_Q (14 # 100); F.of_Q (12 # 100); F.of_Q (5 # 100)]].

Definition example_longshort : DataFrame Z :=
  mkDataFrame [10957] ["Asset1"; "Asset2"; "Asset3"] [[1; -1; -1]].

Definition example_weights : Row := [F.of_Z 1; F.of_Q (-1 # 2); F.of_Q (-1 # 2)].

(** A period in which every asset is short. *)
Definition all_short_longshort : DataFrame Z :=
  mkDataFrame [10987] ["A"; "B"] [[-1; -1]].

(** A price history of a single day, 2000-01-01. *)
Definition one_day_prices : DataFrame float64 :=
  mkDataFrame [10957] ["A"; "B"] [[F.of_Z 100; F.of_Z 50]].

(** Three consecutive days of prices, 3 to 5 January 2000. *)
Definition three_day_prices : DataFrame float64 :=
  mkDataFrame [10959; 10960; 10961] ["A"; "B"]
    [[F.of_Z 100; F.of_Z 50]; [F.of_Z 110; F.of_Z 50]; [F.of_Z 121; F.of_Z 40]].

(** Two assets on 3, 4 and 31 January and 1 and 2 February 2000: A gains on
    4 January, B gains on 1 February. *)
Definition two_month_prices : DataFrame float64 :=
  mkDataFrame [10959; 10960; 10987; 10988; 10989] ["A"; "B"]
    [[F.of_Z 100; F.of_Z 100];
     [F.of_Z 110; F.of_Z 100];
     [F.of_Z 110; F.of_Z 100];
     [F.of_Z 110; F.of_Z 120];
     [F.of_Z 110; F.of_Z 120]].

(** The tables of [generate_weights] on the two-month prices, with a window
    of one day: signal, ranks, legs, period weights (rebalance dates
    2000-01-31 and 2000-02-29) and daily weights. *)
Definition two_month_stages : Stages :=
  mkStages
    (mkDataFrame [10959; 10960; 10987; 10988; 10989] ["A"; "B"]
       [[NaN; NaN];
        [F.of_Q (1 # 10); F.of_Z 0];
        [F.of_Z 0; F.of_Z 0];
        [F.of_Z 0; F.of_Q (1 # 5)];
        [F.of_Z 0; F.of_Z 0]])
    (mkDataFrame [10987; 11016] ["A"; "B"]
       [[F.of_Z 1; F.of_Z 2]; [F.of_Z 2; F.of_Z 1]])
    (mkDataFrame [10987; 11016] ["A"; "B"] [[1; -1]; [-1; 1]])
    (mkDataFrame [10987; 11016] ["A"; "B"]
       [[F.of_Z 1; F.of_Z (-1)]; [F.of_Z (-1); F.of_Z 1]])
    (mkDataFrame [10959; 10960; 10987; 10988; 10989] ["A"; "B"]
       [[F.of_Z 1; F.of_Z (-1)];
        [F.of_Z 1; F.of_Z (-1)];
        [F.of_Z 1; F.of_Z (-1)];
        [F.of_Z (-1); F.of_Z 1];
        [F.of_Z (-1); F.of_Z 1]]).

(** The backtest of the two-month prices and its PnL tables. *)
Definition two_month_backtest : WeightedPortfolioBacktester :=
  mkWeightedPortfolioBacktester (default_portfolio 1) two_month_prices.

Definition two_month_asset_pnls : DataFrame float64 :=
  mkDataFrame [10959; 10960; 10987; 10988; 10989] ["A"; "B"]
    [[NaN; NaN];
     [F.of_Q (1 # 10); F.of_Z 0];
     [F.of_Q (1 # 10); F.of_Z 0];
     [F.of_Q (1 # 10); F.of_Q (1 # 5)];
     [F.of_Q (1 # 10); F.of_Q (1 # 5)]].

Definition two_month_total_pnl : Series float64 :=
  mkSeries [10959; 10960; 10987; 10988; 10989]
    [F.of_Z 0; F.of_Q (1 # 10); F.of_Q (1 # 10); F.of_Q (3 # 10); F.of_Q (3 # 10)].

(** ** Statements of the specification that the program does not satisfy *)

(** C1, as stated, on one run: every cell of the asset PnL table is the
    product of all the growth factors of its column up to its row, minus 1,
    and the total PnL is the sum of the row's asset PnLs. *)
Definition pnl_is_full_product (self : WeightedPortfolioBacktester) : Prop :=
  ∀ W asset_pnls total_pnl,
    generate_weights (_portfolio_generator self) (_prices_df self) = Ok W →
    execute self = Ok (asset_pnls, total_pnl) →
    let factors := growth_factors (_prices_df self) W in
    (∀ t a x, cell asset_pnls t a = Some x →
       x = (product (factors_until factors t a) - F.one)%F) ∧
    (∀ t row y, values asset_pnls !! t = Some row →
       s_values total_pnl !! t = Some y → y = pd.fsum row).

(** C5, as stated, on one run: the weight [w] decided for an asset at the
    rebalance date [d] is the daily weight on every timestamp from [d] up to,
    and excluding, the next rebalance date. *)
Definition weight_held_from_rebalance_date (self : WeightedPortfolioGenerator)
    (prices_df : DataFrame float64) : Prop :=
  ∀ s, stages self prices_df = Ok s →
  ∀ k d j w, index (weights s) !! k = Some d → cell (weights s) k j = Some w →
  ∀ i t, index prices_df !! i = Some t →
    d ≤ t → (∀ d', index (weights s) !! S k = Some d' → t < d') →
    cell (daily_weights s) i j = Some w.

(** C6, as stated, on one run: before the first rebalance date no position
    is held, the daily weight is undefined or zero. *)
Definition no_position_before_first_rebalance (self : WeightedPortfolioGenerator)
    (prices_df : DataFrame float64) : Prop :=
  ∀ s, stages self prices_df = Ok s →
  ∀ d0, index (weights s) !! 0%nat = Some d0 →
  ∀ i t, index prices_df !! i = Some t → t < d0 →
  ∀ j w, cell (daily_weights s) i j = Some w → w = NaN ∨ w = F.zero.

(** C7, as stated, on one run: the signal has the shape of the prices and a
    cell is undefined exactly while less than [days] days have elapsed since
    the start of the series. *)
Definition warm_up_of_window_length (days : Z) (prices_df : DataFrame float64)
    : Prop :=
  ∀ signal, generate (momentum days) prices_df = Ok signal →
  index signal = index prices_df ∧ columns signal = columns prices_df ∧
  ∀ t0, index prices_df !! 0%nat = Some t0 →
  ∀ i t j x, index prices_df !! i = Some t → cell signal i j = Some x →
    (x = NaN ↔ t - t0 < days).

(** C9, as stated, on one run: when the resampled signal has no valid row,
    [generate_weights] raises. *)
Definition fails_without_valid_rows (self : WeightedPortfolioGenerator)
    (prices_df : DataFrame float64) : Prop :=
  ∀ signal, generate (_signal_generator self) prices_df = Ok signal →
    zero_valid_rows (monthly_signal self signal) →
    ∃ e, generate_weights self prices_df = Raise e.

(** C10, as stated, on one run: a period whose signals are all undefined has
    an undefined rank row, and then neither leg membership nor a weight for
    any asset. *)
Definition undefined_period_is_skipped (self : WeightedPortfolioGenerator)
    (prices_df : DataFrame float64) : Prop :=
  ∀ s, stages self prices_df = Ok s →
  ∀ i row, values (monthly_signal self (signal_df s)) !! i = Some row →
    all_undefined row →
    (∀ j r, cell (rank_df s) i j = Some r → r = NaN) ∧
    (∀ j x, cell (longshort_portfolios s) i j = Some x → x ≠ 1 ∧ x ≠ -1) ∧
    (∀ j w, cell (weights s) i j = Some w → w = NaN ∨ w = F.zero).

(** ** data_reader.py *)

(** What [_read] loads from a file: the date column becomes the index, a
    [DatetimeIndex] when its entries parse as dates and an index of plain
    labels otherwise. *)
Inductive Index : Type :=
  | DatetimeIndex (timestamps : list Timestamp)
  | ObjectIndex (labels : list string).

Record RawFrame : Type := mkRawFrame {
  raw_index : Index;
  raw_columns : list string;
  raw_values : list (list float64)
}.

(** Exceptions of the reader and of the export, beside those of the
    pipeline. *)
Inductive io_exn : Type :=
  | InvalidIndex (filepath : string)
  | AttributeError (attribute : string)
  | Raised (e : exn).

Inductive outcome (A : Type) : Type :=
  | Done (a : A)
  | Failed (e : io_exn).
Arguments Done {A} _.
Arguments Failed {A} _.

(** [df.sort_index()]: the rows in ascending order of their timestamps.  A
    frame whose index already ascends is returned as it is; the order that
    pandas gives to rows of equal timestamps is not specified, here they keep
    their order. *)
Fixpoint insert_by_index (p : Z * list float64) (l : list (Z * list float64))
    : list (Z * list float64) :=
  match l with
  | [] => [p]
  | q :: l' => if decide (p.1 ≤ q.1) then p :: l else q :: insert_by_index p l'
  end.

Definition sort_index (df : DataFrame float64) : DataFrame float64 :=
  let sorted := foldr insert_by_index [] (zip (index df) (values df)) in
  mkDataFrame sorted.*1 (columns df) sorted.*2.

(** [DatasetReader]: the abstract [_read] is a field, filled in by the
    subclass. *)
Record DatasetReader : Type := mkDatasetReader {
  _filepath : string;
  _read : string → RawFrame
}.

Definition read (self : DatasetReader) : outcome (DataFrame float64) :=
  let df := _read self (_filepath self) in
  match raw_index df with
  | DatetimeIndex timestamps =>
      Done (sort_index (mkDataFrame timestamps (raw_columns df) (raw_values df)))
  | ObjectIndex _ => Failed (InvalidIndex (_filepath self))
  end.

(** [ExampleCSVDataset]: [_read] is [pd.read_csv] with the first column
    parsed as dates and taken as index; the file system and the parser are
    the parameter [read_csv]. *)
Definition ExampleCSVDataset (read_csv : string → RawFrame) (filepath : string)
    : DatasetReader :=
  mkDatasetReader filepath read_csv.

(** ** Export of the intermediate tables *)

(** The tables kept for export hold floats or, for the long/short positions,
    integers. *)
Inductive Table : Type :=
  | FloatTable (df : DataFrame float64)
  | IntTable (df : DataFrame Z).

(** What a run writes: CSV files ([to_csv]) and the figure of the total PnL
    ([savefig]). *)
Inductive FileContent : Type :=
  | Csv (table : Table)
  | Figure (total_pnl : Series float64).

(** The dictionary that [generate_weights] stores in [self.export_data]. *)
Definition export_data_of (s : Stages) : gmap string Table :=
  {[ "signal_df" := FloatTable (signal_df s);
     "rank_df" := FloatTable (rank_df s);
     "daily_weights" := FloatTable (daily_weights s);
     "longshort_portfolios" := IntTable (longshort_portfolios s) ]}.

(** [generate_weights(prices_df, save_for_exporting)] with the attribute
    [export_data] of the generator threaded through: [None] while the
    attribute does not exist. *)
Definition generate_weights_saving (self : WeightedPortfolioGenerator)
    (export_data : option (gmap string Table)) (prices_df : DataFrame float64)
    (save_for_exporting : bool)
    : result (DataFrame float64 * option (gmap string Table)) :=
  s ← stages self prices_df;
  Ok (daily_weights s,
      if save_for_exporting then Some (export_data_of s) else export_data).

(** The outcome of a run: the files written, in order, the attribute
    [export_data] afterwards, and the exception that ended the run, if any. *)
Record Run : Type := mkRun {
  files : list (string * FileContent);
  export_state : option (gmap string Table);
  error : option io_exn
}.

(** The four [to_csv] calls of [_export_intermediary_data], in order: the key
    read from [export_data] and the file written. *)
Definition exports : list (string * string) :=
  [("signal_df", "momentumSignal.csv");
   ("rank_df", "momentumRanks.csv");
   ("longshort_portfolios", "LongShortPositions.csv");
   ("daily_weights", "weights.csv")].

Fixpoint to_csv_all (d : gmap string Table) (todo : list (string * string))
    : list (string * FileContent) * option io_exn :=
  match todo with
  | [] => ([], None)
  | (key, file) :: todo' =>
      match d !! key with
      | None => ([], Some (Raised (KeyError key)))
      | Some table =>
          let '(written, err) := to_csv_all d todo' in
          ((file, Csv table) :: written, err)
      end
  end.

Definition _export_intermediary_data (export_data : option (gmap string Table))
    : list (string * FileContent) * option io_exn :=
  match export_data with
  | None => ([], Some (AttributeError "export_data"))
  | Some d => to_csv_all d exports
  end.

(** [execute(export)] with its effects: the figure [pnl.png] is saved after
    the PnLs are computed, the CSV files are written last. *)
Definition execute_exporting (self : WeightedPortfolioBacktester)
    (export_data : option (gmap string Table)) (export : bool) : Run :=
  match generate_weights_saving (_portfolio_generator self) export_data
          (_prices_df self) export with
  | Raise e => mkRun [] export_data (Some (Raised e))
  | Ok (daily_weights, export_data') =>
      let total_pnl := (_get_pnls self daily_weights).2 in
      let figure := ("pnl.png", Figure total_pnl) in
      if export then
        let '(csvs, err) := _export_intermediary_data export_data' in
        mkRun (figure :: csvs) export_data' err
      else mkRun [figure] export_data' None
  end.

(** ** run.py *)

(** The script, for the file named on the command line. *)
Definition main (read_csv : string → RawFrame) (filepath : string) : Run :=
  let config := mkSignalGeneratorConfig {["rolling_avg_days" := 252]} in
  match new_SignalGenerator MomentumSignalGenerator config with
  | Raise e => mkRun [] None (Some (Raised e))
  | Ok signal_generator =>
      let portfolio_generator :=
        EqualWeightedPortfolioGenerator signal_generator calendar.M
          (F.of_Q (1 # 2)) in
      match read (ExampleCSVDataset read_csv filepath) with
      | Failed e => mkRun [] None (Some e)
      | Done prices_df =>
          execute_exporting
            (mkWeightedPortfolioBacktester portfolio_generator prices_df)
            None true
      end
  end.

(** ** Further vocabulary *)

(** The files of an exporting run over the tables [s], after the figure. *)
Definition exported_files (s : Stages) : list (string * FileContent) :=
  [("momentumSignal.csv", Csv (FloatTable (signal_df s)));
   ("momentumRanks.csv", Csv (FloatTable (rank_df s)));
   ("LongShortPositions.csv", Csv (IntTable (longshort_portfolios s)));
   ("weights.csv", Csv (FloatTable (daily_weights s)))].

(** The price table cut after its first [n] rows. *)
Definition first_rows (n : nat) (prices_df : DataFrame float64)
    : DataFrame float64 :=
  mkDataFrame (take n (index prices_df)) (columns prices_df)
    (take n (values prices_df)).

(** The pandas frequency ['MS']: calendar months, labelled by their first
    day. *)
Program Definition MS : pd.Frequency :=
  pd.mkFrequency calendar.month_of calendar.month_start _.
Next Obligation.
  assert (Hstep : ∀ a, calendar.month_start a < calendar.month_start (a + 1)).
  { intros a. unfold calendar.month_start.
    assert (Hmp : 0 ≤ a `mod` 12 < 12) by (apply Z.mod_pos_bound; lia).
    destruct (decide (a `mod` 12 = 11)) as [H11|H11].
    - assert ((a + 1) `div` 12 = a `div` 12 + 1 ∧ (a + 1) `mod` 12 = 0) as [-> ->]
        by (Z.div_mod_to_equations; lia).
      rewrite H11. Z.div_mod_to_equations. lia.
    - assert ((a + 1) `div` 12 = a `div` 12 ∧ (a + 1) `mod` 12 = a `mod` 12 + 1)
        as [-> ->] by (Z.div_mod_to_equations; lia).
      generalize dependent (a `mod` 12). intros mp ? ?.
      generalize (a `div` 12). intros y.
      Z.div_mod_to_equations. lia. }
  intros a b Hab.
  assert (H : ∀ n : nat,
            calendar.month_start a < calendar.month_start (a + Z.of_nat (S n))).
  { induction n as [|n IH].
    - apply Hstep.
    - etrans; [exact IH|].
      replace (a + Z.of_nat (S (S n))) with (a + Z.of_nat (S n) + 1) by lia.
      apply Hstep. }
  specialize (H (Z.to_nat (b - a - 1))).
  by replace (a + Z.of_nat (S (Z.to_nat (b - a - 1)))) with b in H by lia.
Qed.

(** A file whose date column parses, with its rows out of order, and a file
    whose first column does not parse as dates. *)
Definition unsorted_file : RawFrame :=
  mkRawFrame (DatetimeIndex [10960; 10959; 10961]) ["A"; "B"]
    [[F.of_Z 110; F.of_Z 50]; [F.of_Z 100; F.of_Z 50]; [F.of_Z 121; F.of_Z 40]].

Definition undated_file : RawFrame :=
  mkRawFrame (ObjectIndex ["a"; "b"]) ["A"] [[F.of_Z 1]; [F.of_Z 2]].

Global Instance Table_eq_dec : EqDecision Table.
Proof. solve_decision. Defined.

Global Instance FileContent_eq_dec : EqDecision FileContent.
Proof. solve_decision. Defined.

Global Instance io_exn_eq_dec : EqDecision io_exn.
Proof. solve_decision. Defined.

Global Instance outcome_eq_dec `{EqDecision A} : EqDecision (outcome A).
Proof. solve_decision. Defined.

Global Instance Run_eq_dec : EqDecision Run.
Proof. solve_decision. Defined.

(** ** Sanity checks of the number model and of the calendar *)

Example div_by_zero_is_inf : (F.one / F.zero)%F = PosInf.
Proof. by vm_compute. Qed.

Example minus_one_times_inf : (F.of_Z (-1) * PosInf)%F = NegInf.
Proof. by vm_compute. Qed.

Example minus_one_times_half :
  (F.of_Z (-1) * (F.one / F.of_Z 2))%F = F.of_Q (-1 # 2).
Proof. by_evaluation. Qed.

(** 2000-01-01 is day 10957; January 2000 ends on day 10987, February on
    day 11016; the epoch 1970-01-01 is day 0. *)
Example jan_2000 : calendar.month_end (calendar.month_of 10957) = 10987.
Proof. reflexivity. Qed.

Example feb_2000 :
  calendar.month_end (calendar.month_of 10988) = 11016 ∧
  calendar.month_of 10988 = calendar.month_of 10957 + 1.
Proof. split; reflexivity. Qed.

Example epoch :
  calendar.month_start (calendar.month_of 0) = 0 ∧
  calendar.month_end (calendar.month_of 0) = 30.
Proof. split; reflexivity. Qed.

(** 1999-12-31 is day 10956, the last day of its month; February 1900 has
    28 days: 1900-02-28 is day -25509 and 1900-03-01 starts the next month. *)
Example dec_1999 : calendar.month_end (calendar.month_of 10956) = 10956.
Proof. reflexivity. Qed.

Example feb_1900 :
  calendar.month_end (calendar.month_of (-25509)) = -25509 ∧
  calendar.month_start (calendar.month_of (-25508)) = -25508.
Proof. split; reflexivity. Qed.

(** A month without any row gets an undefined row of its own: January and
    March 2000 resample to three periods. *)
Example resample_fills_empty_month :
  pd.resample_first calendar.M
    (mkDataFrame [10957; 11017] ["A"] [[F.of_Z 1]; [F.of_Z 2]])
  = mkDataFrame [10987; 11016; 11047] ["A"] [[F.of_Z 1]; [NaN]; [F.of_Z 2]].
Proof. by_evaluation. Qed.

(** The first defined value of a column within the period is taken. *)
Example resample_takes_first_defined :
  pd.resample_first calendar.M
    (mkDataFrame [10957; 10958; 10959] ["A"; "B"]
       [[NaN; NaN]; [NaN; F.of_Z 7]; [F.of_Z 3; F.of_Z 8]])
  = mkDataFrame [10987] ["A"; "B"] [[F.of_Z 3; F.of_Z 7]].
Proof. by_evaluation. Qed.

(** Back-fill: the days after the last label are undefined. *)
Example bfill_after_last_label :
  pd.reindex_bfill (mkDataFrame [10987] ["A"] [[F.of_Z 1]]) [10986; 10987; 10988]
  = mkDataFrame [10986; 10987; 10988] ["A"] [[F.of_Z 1]; [F.of_Z 1]; [NaN]].
Proof. by_evaluation. Qed.

(** ** Long/short assignment *)



(** ** Equal weighting *)

Section list_facts.

Context {A B : Type}.

Lemma filter_fmap_iff (P : B → Prop) (Q : A → Prop)
    `{!∀ y, Decision (P y)} `{!∀ x, Decision (Q x)} (f : A → B) (l : list A) :
  Forall (λ x, P (f x) ↔ Q x) l → filter P (f <$> l) = f <$> filter Q l.
Proof.
  induction 1 as [|x l Hx _ IH]; [done|].
  rewrite fmap_cons, !filter_cons.
  destruct (decide (P (f x))), (decide (Q x)); try tauto.
  by rewrite fmap_cons, IH.
Qed.

Lemma fmap_const_Forall (f : A → B) (y : B) (l : list A) :
  Forall (λ x, f x = y) l → f <$> l = replicate (length l) y.
Proof.
  induction 1 as [|x l Hx _ IH]; [done|].
  rewrite fmap_cons. cbn [length replicate]. by rewrite Hx, IH.
Qed.

End list_facts.

Section equal_weights.

Implicit Types (ls : list Z) (c d : Qc).

Lemma Qc_of_nat_pos (n : nat) : n ≠ 0%nat → (0 < Qc_of_Z (Z.of_nat n))%Qc.
Proof. intros Hn. rewrite <-Z2Qc_inj_0. apply (proj1 (Z2Qc_inj_lt _ _)). lia. Qed.

Lemma Qc_of_nat_ne_0 (n : nat) : n ≠ 0%nat → Qc_of_Z (Z.of_nat n) ≠ 0%Qc.
Proof.
  intros Hn Heq. apply Qc_of_nat_pos in Hn. rewrite Heq in Hn.
  by apply Qclt_not_eq in Hn.
Qed.

Lemma one_over_count (n : nat) :
  n ≠ 0%nat → (F.one / F.of_nat n)%F = Fin (1 / Qc_of_Z (Z.of_nat n))%Qc.
Proof.
  intros Hn. unfold F.div, F.one, F.of_nat, F.of_Z.
  destruct (decide _) as [H0|]; [|done]. by apply Qc_of_nat_ne_0 in H0.
Qed.

Lemma inv_count_pos (n : nat) :
  n ≠ 0%nat → (0 < Qc_of_Z 1 * (1 / Qc_of_Z (Z.of_nat n)))%Qc.
Proof.
  intros Hn. rewrite Z2Qc_inj_1, Qcmult_1_l. unfold Qcdiv. rewrite Qcmult_1_l.
  apply Qcinv_pos, Qc_of_nat_pos, Hn.
Qed.

Lemma n_long_pos ls x : x ∈ ls → 0 < x → n_long ls ≠ 0%nat.
Proof.
  intros Hin Hx Hn. unfold n_long in Hn. apply length_zero_iff_nil in Hn.
  assert (x ∈ filter (λ x, 0 < x) ls) as Hf by (by apply list_elem_of_filter).
  rewrite Hn in Hf. by apply not_elem_of_nil in Hf.
Qed.

Lemma n_short_pos ls x : x ∈ ls → x < 0 → n_short ls ≠ 0%nat.
Proof.
  intros Hin Hx Hn. unfold n_short in Hn. apply length_zero_iff_nil in Hn.
  assert (x ∈ filter (λ x, x < 0) ls) as Hf by (by apply list_elem_of_filter).
  rewrite Hn in Hf. by apply not_elem_of_nil in Hf.
Qed.

(** Every cell of an equal-weight row is finite: a long cell is
    [1 * (1 / n_long)], a short cell [-1 * (1 / n_short)], and the count
    of the leg a cell belongs to is never zero. *)
Lemma equal_weights_row_cells ls :
  leg_row ls →
  equal_weights_row ls =
    (λ x, if bool_decide (0 < x) then Fin (long_weight ls)
          else Fin (short_weight ls)) <$> ls.
Proof.
  intros Hleg. unfold equal_weights_row.
  apply list_eq. intros i. rewrite !list_lookup_fmap.
  destruct (ls !! i) as [x|] eqn:Hx; [simpl|done]. f_equal.
  assert (x ∈ ls) as Hin by (by eapply list_elem_of_lookup_2).
  unfold leg_row in Hleg. rewrite Forall_forall in Hleg.
  unfold where_cell. destruct (Hleg x Hin) as [-> | ->].
  - rewrite bool_decide_eq_true_2 by lia.
    fold (n_long ls). rewrite one_over_count by (by eapply n_long_pos).
    done.
  - rewrite bool_decide_eq_false_2 by lia.
    fold (n_short ls). rewrite one_over_count by (by eapply n_short_pos).
    done.
Qed.

Lemma fsum_replicate_from (n : nat) c a :
  foldl F.add (Fin a) (replicate n (Fin c))
    = Fin (a + Qc_of_Z (Z.of_nat n) * c)%Qc.
Proof.
  revert a. induction n as [|n IH]; intros a.
  - cbn [replicate foldl]. change (Z.of_nat 0) with 0.
    rewrite Z2Qc_inj_0. f_equal. ring.
  - rewrite Nat2Z.inj_succ. cbn [replicate foldl].
    change (Fin a + Fin c)%F with (Fin (a + c)%Qc). rewrite IH. f_equal.
    unfold Z.succ. rewrite Z2Qc_inj_add, Z2Qc_inj_1. ring.
Qed.

Lemma fsum_replicate (n : nat) c :
  pd.fsum (replicate n (Fin c)) = Fin (Qc_of_Z (Z.of_nat n) * c)%Qc.
Proof.
  unfold pd.fsum, F.zero. rewrite fsum_replicate_from. f_equal. ring.
Qed.

Lemma ltb_zero_Fin c : (F.zero <? Fin c)%F = bool_decide (0 < c)%Qc.
Proof. done. Qed.

Lemma ltb_Fin_zero c : (Fin c <? F.zero)%F = bool_decide (c < 0)%Qc.
Proof. done. Qed.

Lemma leg_cell_positive l c d x :
  (n_long l ≠ 0%nat → 0 < c)%Qc → (n_short l ≠ 0%nat → d < 0)%Qc →
  x ∈ l → x = 1 ∨ x = -1 →
  (F.zero <? (if bool_decide (0 < x) then Fin c else Fin d))%F ↔ 0 < x.
Proof.
  intros Hc Hd Hin [-> | ->].
  - rewrite bool_decide_eq_true_2 by lia. rewrite ltb_zero_Fin.
    split; [lia|]. intros _. apply bool_decide_pack, Hc.
    by apply (n_long_pos _ 1).
  - rewrite bool_decide_eq_false_2 by lia. rewrite ltb_zero_Fin.
    split; [|lia]. intros Hpos%bool_decide_unpack.
    assert (d < 0)%Qc as Hneg by (by apply Hd, (n_short_pos _ (-1))).
    by destruct (Qclt_not_le _ _ Hpos (Qclt_le_weak _ _ Hneg)).
Qed.

Lemma leg_cell_negative l c d x :
  (n_long l ≠ 0%nat → 0 < c)%Qc → (n_short l ≠ 0%nat → d < 0)%Qc →
  x ∈ l → x = 1 ∨ x = -1 →
  ((if bool_decide (0 < x) then Fin c else Fin d) <? F.zero)%F ↔ x < 0.
Proof.
  intros Hc Hd Hin [-> | ->].
  - rewrite bool_decide_eq_true_2 by lia. rewrite ltb_Fin_zero.
    split; [|lia]. intros Hneg%bool_decide_unpack.
    assert (0 < c)%Qc as Hpos by (by apply Hc, (n_long_pos _ 1)).
    by destruct (Qclt_not_le _ _ Hpos (Qclt_le_weak _ _ Hneg)).
  - rewrite bool_decide_eq_false_2 by lia. rewrite ltb_Fin_zero.
    split; [lia|]. intros _. apply bool_decide_pack, Hd.
    by apply (n_short_pos _ (-1)).
Qed.

(** The positive entries of a row made of [c] on long cells and [d] on
    short cells, and its negative entries. *)
Lemma filter_positive_cells l c d :
  leg_row l → (n_long l ≠ 0%nat → 0 < c)%Qc → (n_short l ≠ 0%nat → d < 0)%Qc →
  filter (λ x, (F.zero <? x)%F)
      ((λ x, if bool_decide (0 < x) then Fin c else Fin d) <$> l)
    = replicate (n_long l) (Fin c).
Proof.
  intros Hleg Hc Hd. unfold leg_row in Hleg. rewrite Forall_forall in Hleg.
  rewrite (filter_fmap_iff _ (λ x, 0 < x)).
  - apply fmap_const_Forall, Forall_forall.
    intros x [Hx _]%list_elem_of_filter. by rewrite bool_decide_eq_true_2.
  - apply Forall_forall. intros x Hin. by eapply leg_cell_positive; eauto.
Qed.

Lemma filter_negative_cells l c d :
  leg_row l → (n_long l ≠ 0%nat → 0 < c)%Qc → (n_short l ≠ 0%nat → d < 0)%Qc →
  filter (λ x, (x <? F.zero)%F)
      ((λ x, if bool_decide (0 < x) then Fin c else Fin d) <$> l)
    = replicate (n_short l) (Fin d).
Proof.
  intros Hleg Hc Hd. unfold leg_row in Hleg. rewrite Forall_forall in Hleg.
  rewrite (filter_fmap_iff _ (λ x, x < 0)).
  - apply fmap_const_Forall, Forall_forall.
    intros x [Hx _]%list_elem_of_filter. by rewrite bool_decide_eq_false_2 by lia.
  - apply Forall_forall. intros x Hin. by eapply leg_cell_negative; eauto.
Qed.

Lemma long_weight_pos ls : n_long ls ≠ 0%nat → (0 < long_weight ls)%Qc.
Proof. apply inv_count_pos. Qed.

Lemma short_weight_neg ls : n_short ls ≠ 0%nat → (short_weight ls < 0)%Qc.
Proof.
  intros Hn%inv_count_pos. unfold short_weight.
  assert (Qc_of_Z (-1) = - Qc_of_Z 1)%Qc as -> by (by rewrite <-Z2Qc_inj_opp).
  apply Qclt_minus_iff.
  by replace (0 + - (- Qc_of_Z 1 * (1 / Qc_of_Z (Z.of_nat (n_short ls)))))%Qc
    with (Qc_of_Z 1 * (1 / Qc_of_Z (Z.of_nat (n_short ls))))%Qc by ring.
Qed.

Lemma sum_positive_equal_weights ls :
  leg_row ls →
  sum_positive (equal_weights_row ls)
    = Fin (Qc_of_Z (Z.of_nat (n_long ls)) * long_weight ls)%Qc.
Proof.
  intros Hleg. rewrite equal_weights_row_cells by done.
  unfold sum_positive.
  rewrite filter_positive_cells
    by auto using long_weight_pos, short_weight_neg.
  apply fsum_replicate.
Qed.

Lemma sum_negative_equal_weights ls :
  leg_row ls →
  sum_negative (equal_weights_row ls)
    = Fin (Qc_of_Z (Z.of_nat (n_short ls)) * short_weight ls)%Qc.
Proof.
  intros Hleg. rewrite equal_weights_row_cells by done.
  unfold sum_negative.
  rewrite filter_negative_cells
    by auto using long_weight_pos, short_weight_neg.
  apply fsum_replicate.
Qed.

Lemma count_times_long_weight ls :
  n_long ls ≠ 0%nat → (Qc_of_Z (Z.of_nat (n_long ls)) * long_weight ls = 1)%Qc.
Proof.
  intros Hn%Qc_of_nat_ne_0. unfold long_weight. rewrite Z2Qc_inj_1. by field.
Qed.

Lemma count_times_short_weight ls :
  n_short ls ≠ 0%nat →
  (Qc_of_Z (Z.of_nat (n_short ls)) * short_weight ls = Qc_of_Z (-1))%Qc.
Proof.
  intros Hn%Qc_of_nat_ne_0. unfold short_weight. by field.
Qed.

End equal_weights.

Lemma within_refl (tol : Q) (a : Qc) :
  (0 ≤ Q2Qc tol)%Qc → within tol (Fin a) (Fin a).
Proof.
  intros Htol. unfold within. replace (a - a)%Qc with 0%Qc by ring.
  split; [|done]. apply Qcopp_le_compat in Htol.
  by replace (- 0)%Qc with 0%Qc in Htol by ring.
Qed.

Lemma equal_weights_lookup (longshort : DataFrame Z) (i : nat) (w : Row) :
  values (EqualWeighted_assign_weights longshort) !! i = Some w ↔
  ∃ ls, values longshort !! i = Some ls ∧ w = equal_weights_row ls.
Proof.
  unfold EqualWeighted_assign_weights. cbn [values].
  rewrite list_lookup_fmap. destruct (values longshort !! i) as [ls|]; simpl.
  - split; [intros [= <-]; eauto | intros (? & [= <-] & ->); done].
  - split; [done | intros (? & ? & _); done].
Qed.

(** C2. In a row of the equal-weight table whose long and short legs are
    both non-empty, the positive entries sum to 1 and the negative entries to
    -1 (exactly, hence within 1e-9). *)
Theorem equal_weights_legs_sum (longshort : DataFrame Z) (i : nat) (w : Row) :
  leg_table longshort →
  values (EqualWeighted_assign_weights longshort) !! i = Some w →
  (∃ x, x ∈ w ∧ (F.zero <? x)%F) →
  (∃ x, x ∈ w ∧ (x <? F.zero)%F) →
  sum_positive w = F.of_Z 1 ∧ sum_negative w = F.of_Z (-1) ∧
  within (1 # 1000000000) (sum_positive w) (F.of_Z 1) ∧
  within (1 # 1000000000) (sum_negative w) (F.of_Z (-1)).
Proof.
  intros Htable (ls & Hls & ->)%equal_weights_lookup (x & Hx & Hpos) (y & Hy & Hneg).
  assert (leg_row ls) as Hleg by (by eapply Forall_lookup_1 in Htable).
  assert (n_long ls ≠ 0%nat) as Hlong.
  { assert (x ∈ filter (λ x, (F.zero <? x)%F) (equal_weights_row ls)) as Hf
      by (by apply list_elem_of_filter).
    rewrite equal_weights_row_cells, filter_positive_cells in Hf
      by auto using long_weight_pos, short_weight_neg.
    by apply elem_of_replicate in Hf as [_ ?]. }
  assert (n_short ls ≠ 0%nat) as Hshort.
  { assert (y ∈ filter (λ x, (x <? F.zero)%F) (equal_weights_row ls)) as Hf
      by (by apply list_elem_of_filter).
    rewrite equal_weights_row_cells, filter_negative_cells in Hf
      by auto using long_weight_pos, short_weight_neg.
    by apply elem_of_replicate in Hf as [_ ?]. }
  rewrite sum_positive_equal_weights, sum_negative_equal_weights by done.
  rewrite count_times_long_weight, count_times_short_weight by done.
  unfold F.of_Z. rewrite Z2Qc_inj_1.
  assert (0 ≤ Q2Qc (1 # 1000000000))%Qc as Htol by by_evaluation.
  split; [done|]. split; [done|]. split; by apply within_refl.
Qed.

Lemma equal_weights_legs_sum_example :
  leg_table example_longshort ∧
  values (EqualWeighted_assign_weights example_longshort) !! 0%nat = Some example_weights ∧
  sum_positive example_weights = F.of_Z 1 ∧
  sum_negative example_weights = F.of_Z (-1) ∧
  within (1 # 1000000000) (sum_positive example_weights) (F.of_Z 1) ∧
  within (1 # 1000000000) (sum_negative example_weights) (F.of_Z (-1)).
Proof.
  assert (H1 : leg_table example_longshort)
    by (unfold leg_table, leg_row; by_evaluation).
  assert (H2 : values (EqualWeighted_assign_weights example_longshort) !! 0%nat
               = Some example_weights) by by_evaluation.
  split; [exact H1|]. split; [exact H2|].
  apply (equal_weights_legs_sum example_longshort 0 example_weights H1 H2).
  - exists (F.of_Z 1). split; by_evaluation.
  - exists (F.of_Q (-1 # 2)). split; by_evaluation.
Defined.

(** C8. In a row with an empty leg the equal-weight cells are all finite:
    the infinite [1 / 0] of the empty leg is never selected by [np.where];
    the empty leg has no entry and a total weight of zero, and the members of
    the other leg share its unit weight. *)
Theorem empty_leg_no_position (longshort : DataFrame Z) (i : nat) (ls : list Z) :
  leg_table longshort →
  values longshort !! i = Some ls →
  n_long ls = 0%nat ∨ n_short ls = 0%nat →
  ∃ w, values (EqualWeighted_assign_weights longshort) !! i = Some w ∧
       length w = length ls ∧
       Forall (λ x, F.isfinite x) w ∧
       (n_long ls = 0%nat →
          filter (λ x, (F.zero <? x)%F) w = [] ∧ sum_positive w = F.zero) ∧
       (n_short ls = 0%nat →
          filter (λ x, (x <? F.zero)%F) w = [] ∧ sum_negative w = F.zero).
Proof.
  intros Htable Hls Hempty.
  assert (leg_row ls) as Hleg by (by eapply Forall_lookup_1 in Htable).
  exists (equal_weights_row ls). split; [apply equal_weights_lookup; eauto|].
  split; [unfold equal_weights_row; by rewrite length_fmap|].
  split.
  { rewrite equal_weights_row_cells by done. apply Forall_fmap, Forall_true.
    intros x. simpl. by destruct (bool_decide _). }
  unfold sum_positive, sum_negative. rewrite equal_weights_row_cells by done.
  split; intros Hn.
  - rewrite !filter_positive_cells
      by auto using long_weight_pos, short_weight_neg.
    by rewrite Hn.
  - rewrite !filter_negative_cells
      by auto using long_weight_pos, short_weight_neg.
    by rewrite Hn.
Qed.

Lemma empty_leg_no_position_example :
  n_long [-1; -1] = 0%nat ∧
  ∃ w, values (EqualWeighted_assign_weights all_short_longshort) !! 0%nat = Some w ∧
       length w = 2%nat ∧
       Forall (λ x, F.isfinite x) w ∧
       (n_long [-1; -1] = 0%nat →
          filter (λ x, (F.zero <? x)%F) w = [] ∧ sum_positive w = F.zero) ∧
       (n_short [-1; -1] = 0%nat →
          filter (λ x, (x <? F.zero)%F) w = [] ∧ sum_negative w = F.zero).
Proof.
  split; [reflexivity|].
  apply (empty_leg_no_position all_short_longshort 0 [-1; -1]).
  - unfold leg_table, leg_row. by_evaluation.
  - reflexivity.
  - left. reflexivity.
Defined.

(** ** Runs on the test data *)

Example momentum_constructed :
  new_SignalGenerator MomentumSignalGenerator (momentum_config 252) = Ok (momentum 252).
Proof. vm_compute. reflexivity. Qed.

Example momentum_needs_window :
  new_SignalGenerator MomentumSignalGenerator (mkSignalGeneratorConfig ∅)
    = Raise (Exception "MomentumSignalGenerator" {["rolling_avg_days"]}).
Proof. vm_compute. reflexivity. Qed.

Example two_month_run :
  stages (default_portfolio 1) two_month_prices = Ok two_month_stages.
Proof. by_evaluation. Qed.

(** ** Rows without any defined signal *)

Section undefined_rows.

Lemma keys_from_all_undefined {A} (f : nat → float64 → A * float64) (row : Row) :
  (∀ i x, (f i x).2 = x) → all_undefined row →
  filter (λ p, F.notna p.2) (imap f row) = [].
Proof.
  intros Hf Hrow. revert f Hf.
  induction Hrow as [|x row -> _ IH]; intros f Hf; [done|].
  rewrite imap_cons, filter_cons_False by (rewrite Hf; intros []).
  apply IH. intros i x. apply Hf.
Qed.

Lemma imap_const_replicate {A B} (y : B) (l : list A) :
  imap (λ _ _, y) l = replicate (length l) y.
Proof. induction l as [|x l IH]; [done|]. rewrite imap_cons. simpl. by f_equal. Qed.

Lemma rank_row_all_undefined (row : Row) :
  all_undefined row → pd.rank_row row = replicate (length row) NaN.
Proof.
  intros Hrow. unfold pd.rank_row, pd.argsort_desc, pd.keys.
  rewrite keys_from_all_undefined by done. simpl.
  apply imap_const_replicate.
Qed.

Lemma leb_NaN (cutoff : float64) : (NaN <=? cutoff)%F = false.
Proof. by destruct cutoff. Qed.

Lemma filter_short_replicate (n : nat) :
  filter (λ x, x < 0) (replicate n (-1)) = replicate n (-1).
Proof.
  induction n as [|n IH]; [done|].
  cbn [replicate]. rewrite filter_cons_True by lia. by rewrite IH.
Qed.

Lemma equal_weights_all_short (n : nat) :
  equal_weights_row (replicate n (-1))
    = replicate n (F.of_Z (-1) * (F.one / F.of_nat n))%F.
Proof.
  unfold equal_weights_row. rewrite fmap_replicate.
  rewrite filter_short_replicate, length_replicate. done.
Qed.

End undefined_rows.

(** With a single day of prices the only period has no defined signal, its
    rank row is NaN, yet both assets are put on the short leg with weight
    -1/2. *)
Lemma undefined_period_is_short :
  stages (default_portfolio 252) one_day_prices
    = Ok (mkStages
            (mkDataFrame [10957] ["A"; "B"] [[NaN; NaN]])
            (mkDataFrame [10987] ["A"; "B"] [[NaN; NaN]])
            (mkDataFrame [10987] ["A"; "B"] [[-1; -1]])
            (mkDataFrame [10987] ["A"; "B"] [[F.of_Q (-1 # 2); F.of_Q (-1 # 2)]])
            (mkDataFrame [10957] ["A"; "B"] [[F.of_Q (-1 # 2); F.of_Q (-1 # 2)]])) ∧
  ¬ undefined_period_is_skipped (default_portfolio 252) one_day_prices.
Proof.
  assert (Hrun : stages (default_portfolio 252) one_day_prices
    = Ok (mkStages
            (mkDataFrame [10957] ["A"; "B"] [[NaN; NaN]])
            (mkDataFrame [10987] ["A"; "B"] [[NaN; NaN]])
            (mkDataFrame [10987] ["A"; "B"] [[-1; -1]])
            (mkDataFrame [10987] ["A"; "B"] [[F.of_Q (-1 # 2); F.of_Q (-1 # 2)]])
            (mkDataFrame [10957] ["A"; "B"] [[F.of_Q (-1 # 2); F.of_Q (-1 # 2)]])))
    by by_evaluation.
  split; [exact Hrun|].
  intros Hclaim.
  destruct (Hclaim _ Hrun 0%nat [NaN; NaN]) as (_ & Hlegs & _).
  - by_evaluation.
  - by repeat constructor.
  - destruct (Hlegs 0%nat (-1)) as [_ Hshort]; [reflexivity|]. by apply Hshort.
Qed.

(** C10 (amended). A period whose signals are all undefined has an undefined
    (all-NaN) rank row; as [NaN <= cutoff] is false, every asset of that
    period is put on the short leg (-1), and with equal weighting each of the
    [N] assets gets the weight [-1 * (1 / N)]. *)
Theorem undefined_period_all_short (sg : SignalGenerator) (period : pd.Frequency)
    (split : float64) (signal_df : DataFrame float64) (i : nat) (row : Row) :
  let self := EqualWeightedPortfolioGenerator sg period split in
  let rank_df := _rank_signals self signal_df in
  let longshort := _assign_longshort self rank_df in
  let N := length row in
  values (monthly_signal self signal_df) !! i = Some row →
  all_undefined row →
  values rank_df !! i = Some (replicate N NaN) ∧
  values longshort !! i = Some (replicate N (-1)) ∧
  values (_assign_weights self longshort) !! i
    = Some (replicate N (F.of_Z (-1) * (F.one / F.of_nat N))%F).
Proof.
  intros self rank_df longshort N Hrow Hundef.
  assert (values rank_df !! i = Some (replicate N NaN)) as Hrank.
  { unfold rank_df, _rank_signals, pd.rank_desc_first. cbn [values].
    rewrite list_lookup_fmap, Hrow. simpl.
    by rewrite rank_row_all_undefined. }
  assert (values longshort !! i = Some (replicate N (-1))) as Hlegs.
  { unfold longshort, _assign_longshort, pd.map_cells. cbn [values].
    rewrite list_lookup_fmap, Hrank. simpl.
    rewrite fmap_replicate. unfold longshort_cell. by rewrite leb_NaN. }
  split; [done|]. split; [done|].
  apply equal_weights_lookup. exists (replicate N (-1)).
  split; [done|]. by rewrite equal_weights_all_short.
Qed.

Lemma undefined_period_all_short_example :
  let self := default_portfolio 252 in
  let signal_df := mkDataFrame [10957] ["A"; "B"] [[NaN; NaN]] in
  let rank_df := _rank_signals self signal_df in
  let longshort := _assign_longshort self rank_df in
  values rank_df !! 0%nat = Some [NaN; NaN] ∧
  values longshort !! 0%nat = Some [-1; -1] ∧
  values (_assign_weights self longshort) !! 0%nat
    = Some (replicate 2 (F.of_Z (-1) * (F.one / F.of_nat 2))%F).
Proof.
  apply (undefined_period_all_short (momentum 252) calendar.M (F.of_Q (1 # 2))
           (mkDataFrame [10957] ["A"; "B"] [[NaN; NaN]]) 0 [NaN; NaN]).
  - by_evaluation.
  - unfold all_undefined. by_evaluation.
Defined.

(** ** Failure modes of [generate_weights] *)


Lemma momentum_validates (cfg : SignalGeneratorConfig) (days : Z) :
  params cfg !! "rolling_avg_days" = Some days →
  new_SignalGenerator MomentumSignalGenerator cfg
    = Ok (mkSignalGenerator MomentumSignalGenerator cfg).
Proof.
  intros Hdays. unfold new_SignalGenerator, _validate_config_params.
  cbn [__class__ _cfg _required_params MomentumSignalGenerator].
  rewrite decide_True; [done|].
  apply set_eq. intros k. rewrite elem_of_difference, elem_of_singleton, elem_of_dom.
  split; [|set_solver]. intros [-> Hnone]. destruct Hnone. by eexists.
Qed.



(** ** Upsampling to daily weights *)

Section upsampling.

Context (sg : SignalGenerator) (period : pd.Frequency) (split : float64).

Let self : WeightedPortfolioGenerator :=
  EqualWeightedPortfolioGenerator sg period split.

(** Rebalance dates are the labels of consecutive periods, hence increase. *)
Lemma labels_increasing (idx : list Z) (j k : nat) (a b : Z) :
  (pd.label period <$> pd.bins period idx) !! j = Some a →
  (pd.label period <$> pd.bins period idx) !! k = Some b →
  (j < k)%nat → a < b.
Proof.
  unfold pd.bins. destruct idx as [|t0 idx]; [done|].
  destruct (last (t0 :: idx)) as [t1|]; [|done].
  rewrite !list_lookup_fmap.
  intros (m & Hm & ->)%fmap_Some (n & Hn & ->)%fmap_Some Hjk.
  apply lookup_seqZ in Hm as [-> _]. apply lookup_seqZ in Hn as [-> _].
  apply pd.label_mono. lia.
Qed.

(** Shape of the period-level weight table. *)
Lemma weights_shape (prices_df : DataFrame float64) (s : Stages) :
  stages self prices_df = Ok s →
  index (weights s)
    = pd.label period <$> pd.bins period (index (signal_df s)) ∧
  length (values (weights s)) = length (index (weights s)) ∧
  leg_table (longshort_portfolios s) ∧
  weights s = EqualWeighted_assign_weights (longshort_portfolios s) ∧
  daily_weights s = pd.reindex_bfill (weights s) (index prices_df).
Proof.
  unfold stages. destruct (generate _ _) as [signal|e]; [|done].
  cbn [mbind result_bind]. intros [= <-]. cbn [weights signal_df index values
    longshort_portfolios daily_weights].
  split; [done|]. split.
  { cbn. by rewrite !length_fmap. }
  split; [|done].
  unfold leg_table, _assign_longshort, pd.map_cells. cbn [values].
  apply Forall_fmap, Forall_true. intros row.
  apply Forall_fmap, Forall_true. intros r. simpl.
  unfold longshort_cell. destruct (_ <=? _)%F; auto.
Qed.

(** Back-fill picks the row of the first label at or after the day. *)
Lemma bfill_row_lookup (src : DataFrame float64) (k : nat) (d t : Z) (r : list float64) :
  index src !! k = Some d → values src !! k = Some r →
  t ≤ d →
  (∀ j dj, (j < k)%nat → index src !! j = Some dj → dj < t) →
  pd.bfill_row src t = r.
Proof.
  intros Hd Hr Htd Hbefore. unfold pd.bfill_row.
  assert (list_find (λ p : Z * list float64, t ≤ p.1)
            (zip (index src) (values src)) = Some (k, (d, r))) as ->; [|done].
  apply list_find_Some. split_and!.
  - apply lookup_zip_with_Some. by exists d, r.
  - done.
  - intros j [dj rj] (? & ? & [= <- <-] & Hj & _)%lookup_zip_with_Some Hjk.
    simpl. specialize (Hbefore j dj Hjk Hj). lia.
Qed.

Lemma daily_row_of_period (prices_df : DataFrame float64) (s : Stages)
    (k i : nat) (d t : Z) (r : list float64) :
  stages self prices_df = Ok s →
  index (weights s) !! k = Some d →
  values (weights s) !! k = Some r →
  index prices_df !! i = Some t →
  t ≤ d →
  (∀ k' d', k = S k' → index (weights s) !! k' = Some d' → d' < t) →
  values (daily_weights s) !! i = Some r.
Proof.
  intros (Hidx & _ & _ & _ & ->)%weights_shape Hd Hr Ht Htd Hprev.
  unfold pd.reindex_bfill. cbn [values].
  rewrite list_lookup_fmap, Ht. simpl. f_equal.
  apply (bfill_row_lookup _ k d); [done..|].
  intros j dj Hjk Hj. destruct k as [|k']; [lia|].
  destruct (lookup_lt_is_Some_2 (index (weights s)) k') as [d' Hd'].
  { apply lookup_lt_Some in Hd. lia. }
  specialize (Hprev k' d' eq_refl Hd').
  destruct (decide (j = k')) as [->|Hne]; [congruence|].
  rewrite Hidx in Hj, Hd'.
  assert (dj < d') by (eapply labels_increasing; [exact Hj|exact Hd'|lia]).
  lia.
Qed.

(** Every cell of the period-level equal-weight table is finite and
    different from zero. *)
Lemma weights_cells_nonzero (prices_df : DataFrame float64) (s : Stages)
    (k j : nat) (w : float64) :
  stages self prices_df = Ok s →
  cell (weights s) k j = Some w → ∃ q, w = Fin q ∧ q ≠ 0%Qc.
Proof.
  intros (_ & _ & Hlegs & -> & _)%weights_shape. unfold cell.
  destruct (values _ !! k) as [r|] eqn:Hr; [simpl|done].
  apply equal_weights_lookup in Hr as (ls & Hls & ->).
  assert (leg_row ls) as Hleg by (by eapply Forall_lookup_1 in Hlegs).
  rewrite equal_weights_row_cells by done.
  rewrite list_lookup_fmap. intros (x & Hx & ->)%fmap_Some.
  assert (x ∈ ls) as Hin by (by eapply list_elem_of_lookup_2).
  unfold leg_row in Hleg. rewrite Forall_forall in Hleg.
  destruct (Hleg x Hin) as [-> | ->].
  - rewrite bool_decide_eq_true_2 by lia. eexists. split; [done|].
    apply not_eq_sym, Qclt_not_eq, long_weight_pos. by apply (n_long_pos _ 1).
  - rewrite bool_decide_eq_false_2 by lia. eexists. split; [done|].
    apply Qclt_not_eq, short_weight_neg. by apply (n_short_pos _ (-1)).
Qed.

End upsampling.

(** On the two-month prices, asset A has weight +1 at the rebalance date
    2000-01-31 (day 10987), but on 2000-02-01 (day 10988), before the next
    rebalance date 2000-02-29 (day 11016), its daily weight is -1. *)
Lemma weight_changes_after_rebalance_date :
  index (weights two_month_stages) = [10987; 11016] ∧
  cell (weights two_month_stages) 0 0 = Some (F.of_Z 1) ∧
  index two_month_prices !! 3%nat = Some 10988 ∧
  cell (daily_weights two_month_stages) 3 0 = Some (F.of_Z (-1)) ∧
  ¬ weight_held_from_rebalance_date (default_portfolio 1) two_month_prices.
Proof.
  split_and!; [reflexivity..|].
  intros Hclaim.
  specialize (Hclaim _ two_month_run 0%nat 10987 0%nat (F.of_Z 1)
                eq_refl eq_refl 3%nat 10988 eq_refl).
  assert (cell (daily_weights two_month_stages) 3 0 = Some (F.of_Z 1)) as Hcell.
  { apply Hclaim; [lia|]. intros d' [= <-]. lia. }
  revert Hcell. apply (bool_decide_unpack (_ ≠ _)). vm_compute. exact I.
Qed.

(** C5 (amended). The weight [w] decided for an asset at the rebalance date
    [d] is the daily weight of that asset on every daily timestamp after the
    previous rebalance date (exclusive) up to [d] (inclusive): daily weights
    are constant between two rebalance dates and are back-filled from the
    later one. *)
Theorem weight_held_until_rebalance_date (sg : SignalGenerator)
    (period : pd.Frequency) (split : float64) (prices_df : DataFrame float64)
    (s : Stages) (k j i : nat) (d t : Z) (w : float64) :
  stages (EqualWeightedPortfolioGenerator sg period split) prices_df = Ok s →
  index (weights s) !! k = Some d →
  cell (weights s) k j = Some w →
  index prices_df !! i = Some t →
  t ≤ d →
  (∀ k' d', k = S k' → index (weights s) !! k' = Some d' → d' < t) →
  cell (daily_weights s) i j = Some w.
Proof.
  intros Hrun Hd Hw Ht Htd Hprev. unfold cell in *.
  destruct (values (weights s) !! k) as [r|] eqn:Hr; [simpl in Hw|done].
  by rewrite (daily_row_of_period sg period split prices_df s k i d t r).
Qed.

Lemma weight_held_until_rebalance_date_example :
  cell (weights two_month_stages) 1 0 = Some (F.of_Z (-1)) ∧
  cell (daily_weights two_month_stages) 3 0 = Some (F.of_Z (-1)).
Proof.
  split; [reflexivity|].
  apply (weight_held_until_rebalance_date (momentum 1) calendar.M (F.of_Q (1 # 2))
           two_month_prices two_month_stages 1 0 3 11016 10988 (F.of_Z (-1))).
  - exact two_month_run.
  - reflexivity.
  - reflexivity.
  - reflexivity.
  - lia.
  - intros k' d' [= <-] [= <-]. lia.
Defined.

(** On the two-month prices the first rebalance date is 2000-01-31 (day
    10987); on 2000-01-03 (day 10959) asset A already has the weight +1. *)
Lemma position_before_first_rebalance :
  index (weights two_month_stages) !! 0%nat = Some 10987 ∧
  index two_month_prices !! 0%nat = Some 10959 ∧
  cell (daily_weights two_month_stages) 0 0 = Some (F.of_Z 1) ∧
  ¬ no_position_before_first_rebalance (default_portfolio 1) two_month_prices.
Proof.
  split_and!; [reflexivity..|].
  intros Hclaim.
  destruct (Hclaim _ two_month_run 10987 eq_refl 0%nat 10959 eq_refl
              ltac:(lia) 0%nat (F.of_Z 1) eq_refl) as [H|H]; revert H.
  - apply (bool_decide_unpack (_ ≠ _)). vm_compute. exact I.
  - apply (bool_decide_unpack (_ ≠ _)). vm_compute. exact I.
Qed.

(** C6 (amended). Every trading day strictly before the first rebalance date
    holds the weights of the first rebalance period, back-filled from that
    date; with equal weighting each of them is defined and different from
    zero. *)
Theorem first_period_weights_before_first_rebalance (sg : SignalGenerator)
    (period : pd.Frequency) (split : float64) (prices_df : DataFrame float64)
    (s : Stages) (d0 t : Z) (i : nat) :
  stages (EqualWeightedPortfolioGenerator sg period split) prices_df = Ok s →
  index (weights s) !! 0%nat = Some d0 →
  index prices_df !! i = Some t →
  t < d0 →
  values (daily_weights s) !! i = values (weights s) !! 0%nat ∧
  ∀ j, cell (daily_weights s) i j = cell (weights s) 0 j ∧
       ∀ w, cell (daily_weights s) i j = Some w → ∃ q, w = Fin q ∧ q ≠ 0%Qc.
Proof.
  intros Hrun Hd0 Ht Htd.
  destruct (weights_shape sg period split prices_df s Hrun) as (_ & Hlen & _).
  destruct (lookup_lt_is_Some_2 (values (weights s)) 0) as [r Hr].
  { apply lookup_lt_Some in Hd0. lia. }
  assert (values (daily_weights s) !! i = values (weights s) !! 0%nat) as Hrow.
  { rewrite Hr.
    apply (daily_row_of_period sg period split prices_df s 0 i d0 t r);
      [done..|lia|done]. }
  split; [done|]. intros j. unfold cell at 1 2. rewrite Hrow.
  split; [done|]. intros w Hw. unfold cell in Hw. rewrite Hrow in Hw.
  by eapply (weights_cells_nonzero sg period split prices_df s 0 j w).
Qed.

Lemma first_period_weights_before_first_rebalance_example :
  values (daily_weights two_month_stages) !! 0%nat
    = values (weights two_month_stages) !! 0%nat ∧
  ∀ j, cell (daily_weights two_month_stages) 0 j = cell (weights two_month_stages) 0 j ∧
       ∀ w, cell (daily_weights two_month_stages) 0 j = Some w →
            ∃ q, w = Fin q ∧ q ≠ 0%Qc.
Proof.
  apply (first_period_weights_before_first_rebalance (momentum 1) calendar.M
           (F.of_Q (1 # 2)) two_month_prices two_month_stages 10987 10959 0).
  - exact two_month_run.
  - reflexivity.
  - reflexivity.
  - lia.
Defined.

(** ** The momentum signal *)

Section momentum_signal.

Implicit Types (r : list float64) (rows : list (list float64)).

Lemma pad_row_defined last r :
  length last = length r → Forall (λ x, F.isfinite x) r → pd.pad_row last r = r.
Proof.
  intros Hlen Hr. revert last Hlen.
  induction Hr as [|x r Hx _ IH]; intros [|l last] Hlen; try done.
  cbn [pd.pad_row zip_with]. f_equal.
  - by destruct x.
  - apply IH. by injection Hlen.
Qed.

Lemma ffill_from_defined (n : nat) last rows :
  length last = n →
  Forall (λ r, length r = n ∧ Forall (λ x, F.isfinite x) r) rows →
  pd.ffill_from last rows = rows.
Proof.
  intros Hlast Hrows. revert last Hlast.
  induction Hrows as [|r rows [Hlen Hr] _ IH]; intros last Hlast; [done|].
  cbn [pd.ffill_from]. rewrite pad_row_defined by (done || congruence).
  f_equal. by apply IH.
Qed.

Lemma ffill_defined (n : nat) rows :
  Forall (λ r, length r = n ∧ Forall (λ x, F.isfinite x) r) rows →
  pd.ffill rows = rows.
Proof.
  destruct 1 as [|r rows [Hlen Hr] Hrows]; [done|].
  cbn [pd.ffill]. f_equal. by eapply ffill_from_defined.
Qed.

Lemma valid_prices_rows (prices_df : DataFrame float64) :
  valid_prices prices_df →
  Forall (λ r, length r = ncols prices_df ∧ Forall is_price r) (values prices_df).
Proof.
  intros [[_ Hlen] Hprice]. rewrite Forall_forall in *. intros r Hr. auto.
Qed.

Lemma pct_row_undefined r (n : nat) :
  length r = n → pd.pct_row r (nan_row n) = replicate n NaN.
Proof.
  intros <-. unfold nan_row, pd.pct_row.
  induction r as [|x r IH]; [done|].
  cbn [length replicate zip_with]. f_equal; [by destruct x | done].
Qed.

Lemma pct_row_defined cur prev :
  length cur = length prev → Forall is_price cur → Forall is_price prev →
  length (pd.pct_row cur prev) = length cur ∧
  Forall (λ x, F.isfinite x) (pd.pct_row cur prev).
Proof.
  intros Hlen Hcur. revert prev Hlen.
  induction Hcur as [|c cur Hc _ IH]; intros [|p prev] Hlen Hprev; try done.
  apply Forall_cons in Hprev as [Hp Hprev].
  destruct (IH prev) as [IHlen IHfin]; [by injection Hlen | done |].
  cbn [pd.pct_row zip_with length]. split; [by f_equal|].
  constructor; [|done].
  destruct Hc as [Hc _], Hp as [Hp Hp0].
  destruct c as [| |c|], p as [| |p|]; try done.
  unfold F.div. destruct (decide (p = 0%Qc)) as [->|]; [by destruct Hp0|done].
Qed.

(** The rows of [pct_change] on a valid price table: an undefined first
    row, fully defined rows after it. *)
Lemma pct_change_rows (prices_df : DataFrame float64) :
  valid_prices prices_df →
  length (values (pd.pct_change prices_df)) = length (index prices_df) ∧
  ∀ i r, values (pd.pct_change prices_df) !! i = Some r →
    length r = ncols prices_df ∧
    match i with
    | O => r = replicate (ncols prices_df) NaN
    | S _ => Forall (λ x, F.isfinite x) r
    end.
Proof.
  intros Hvalid. pose proof (valid_prices_rows _ Hvalid) as Hrows.
  destruct Hvalid as [[Hlen _] _].
  unfold pd.pct_change. cbn [values].
  rewrite (ffill_defined (ncols prices_df)); last first.
  { eapply Forall_impl; [exact Hrows|]. intros r [? Hr]. split; [done|].
    eapply Forall_impl; [exact Hr|]. by intros x [? _]. }
  unfold pd.shift1. split.
  { rewrite length_zip_with, length_take. cbn [length]. lia. }
  intros i r (cur & prev & -> & Hcur & Hprev)%lookup_zip_with_Some.
  apply lookup_take_Some in Hprev as [Hprev _].
  rewrite Forall_forall in Hrows.
  destruct (Hrows cur) as [Hclen Hcprice]; [by eapply list_elem_of_lookup_2|].
  destruct i as [|i].
  - injection Hprev as <-. rewrite pct_row_undefined by done.
    by rewrite length_replicate.
  - cbn in Hprev.
    destruct (Hrows prev) as [Hplen Hpprice]; [by eapply list_elem_of_lookup_2|].
    destruct (pct_row_defined cur prev) as [? ?]; [congruence|done..|].
    split; [congruence|done].
Qed.

Lemma fsum_from_finite (a : Qc) (ys : list float64) :
  Forall (λ x, F.isfinite x) ys → F.isfinite (foldl F.add (Fin a) ys).
Proof.
  intros Hys. revert a. induction Hys as [|y ys Hy _ IH]; intros a; [done|].
  destruct y as [| |q|]; try done. cbn [foldl]. apply IH.
Qed.

Lemma nanmean_undefined (xs : list float64) :
  Forall (λ x, x = NaN) xs → pd.nanmean xs = NaN.
Proof.
  intros Hxs. unfold pd.nanmean, pd.dropna.
  assert (filter (λ x, F.notna x) xs = []) as ->; [|done].
  induction Hxs as [|x xs -> _ IH]; [done|].
  by rewrite filter_cons_False by (intros []).
Qed.

Lemma nanmean_defined (xs : list float64) :
  Forall (λ x, x = NaN ∨ F.isfinite x) xs →
  (∃ x, x ∈ xs ∧ F.isfinite x) →
  F.isfinite (pd.nanmean xs).
Proof.
  intros Hxs (x & Hin & Hx). unfold pd.nanmean.
  assert (Forall (λ x, F.isfinite x) (pd.dropna xs)) as Hfin.
  { apply Forall_forall. intros y [Hy Hyin]%list_elem_of_filter.
    rewrite Forall_forall in Hxs. destruct (Hxs y Hyin) as [->|]; done. }
  assert (x ∈ pd.dropna xs) as Hne.
  { apply list_elem_of_filter. split; [by destruct x|done]. }
  destruct (pd.dropna xs) as [|y ys] eqn:Hdrop; [by apply not_elem_of_nil in Hne|].
  pose proof (fsum_from_finite 0%Qc (y :: ys) Hfin) as Hsum.
  change (Is_true (F.isfinite (pd.fsum (y :: ys)))) in Hsum.
  change (Is_true (F.isfinite (pd.fsum (y :: ys) / F.of_nat (length (y :: ys)))%F)).
  by destruct (pd.fsum (y :: ys)) as [| |q|].
Qed.

Lemma per_column_lookup (f : list float64 → float64) (n j : nat) rows :
  (j < n)%nat → per_column f n rows !! j = Some (f (column j rows)).
Proof.
  intros Hj. unfold per_column.
  by rewrite list_lookup_fmap, lookup_seq_lt.
Qed.

Lemma per_column_length (f : list float64 → float64) (n : nat) rows :
  length (per_column f n rows) = n.
Proof. unfold per_column. by rewrite length_fmap, length_seq. Qed.

(** The rows of a rolling window come from the rows up to the current one,
    and the current row is among them when the window is at least a day. *)
Lemma window_rows_from_past (days : Z) (idx : list Z) rows (i : nat) (t : Z) r :
  r ∈ pd.window_rows days idx rows i t →
  ∃ i', (i' ≤ i)%nat ∧ rows !! i' = Some r.
Proof.
  unfold pd.window_rows. intros ([t' r'] & -> & Hin)%list_elem_of_fmap.
  apply list_elem_of_filter in Hin as [_ Hin].
  apply elem_of_take in Hin as (i' & Hi' & Hlt).
  apply lookup_zip_with_Some in Hi' as (? & ? & [= <- <-] & _ & Hr).
  exists i'. split; [lia|done].
Qed.

Lemma window_rows_current (days : Z) (idx : list Z) rows (i : nat) (t : Z) r :
  0 < days → idx !! i = Some t → rows !! i = Some r →
  r ∈ pd.window_rows days idx rows i t.
Proof.
  intros Hdays Ht Hr. unfold pd.window_rows.
  apply list_elem_of_fmap. exists (t, r). split; [done|].
  apply list_elem_of_filter. split; [simpl; lia|].
  apply elem_of_take. exists i. split; [|lia].
  apply lookup_zip_with_Some. by exists t, r.
Qed.

Lemma rolling_mean_cell (days : Z) (df : DataFrame float64) (i j : nat) x :
  cell (pd.rolling_mean days df) i j = Some x →
  ∃ t, index df !! i = Some t ∧ (j < ncols df)%nat ∧
       x = pd.nanmean (column j (pd.window_rows days (index df) (values df) i t)).
Proof.
  unfold cell, pd.rolling_mean. cbn [values].
  rewrite list_lookup_imap.
  destruct (index df !! i) as [t|]; [simpl|done].
  intros Hj. exists t. split; [done|].
  assert (j < ncols df)%nat as Hlt.
  { apply lookup_lt_Some in Hj. by rewrite per_column_length in Hj. }
  split; [done|]. rewrite per_column_lookup in Hj by done. by injection Hj.
Qed.

End momentum_signal.


Lemma column_elem (j : nat) (rows : list (list float64)) (x : float64) :
  x ∈ column j rows ↔ ∃ r, r ∈ rows ∧ x = default NaN (r !! j).
Proof.
  unfold column. rewrite list_elem_of_fmap.
  split; intros (r & ? & ?); by exists r.
Qed.



(** ** Ranking *)

Section float_order.

Implicit Types x y z : float64.

Lemma ltb_irrefl x : ¬ (x <? x)%F.
Proof.
  intros H. destruct x as [| |a|]; unfold F.ltb in H; simpl in H; try done.
  apply bool_decide_unpack in H. by apply Qclt_not_eq in H.
Qed.

Lemma ltb_trans x y z : (x <? y)%F → (y <? z)%F → (x <? z)%F.
Proof.
  destruct x as [| |a|], y as [| |b|], z as [| |c|]; unfold F.ltb; simpl; try done.
  intros H1%bool_decide_unpack H2%bool_decide_unpack.
  apply bool_decide_pack. by eapply Qclt_trans.
Qed.

Lemma ltb_asym x y : (x <? y)%F → ¬ (y <? x)%F.
Proof. intros H1 H2. exact (ltb_irrefl x (ltb_trans x y x H1 H2)). Qed.

Lemma ltb_total x y : F.notna x → F.notna y → (x <? y)%F ∨ x = y ∨ (y <? x)%F.
Proof.
  destruct x as [| |a|], y as [| |b|]; unfold F.ltb; simpl; try done; auto.
  intros _ _. destruct (Qclt_le_dec a b) as [Hlt|Hle].
  - left. by apply bool_decide_pack.
  - apply Qcle_lt_or_eq in Hle as [Hlt | ->]; [|by auto].
    right. right. by apply bool_decide_pack.
Qed.

Lemma before_trans (a b c : nat * float64) : before a b → before b c → before a c.
Proof.
  intros [Hab | [Hab Hiab]] [Hbc | [Hbc Hibc]]; unfold before.
  - left. by eapply ltb_trans.
  - left. by rewrite <-Hbc.
  - left. by rewrite Hab.
  - right. split; [congruence | lia].
Qed.

Lemma before_asym (a b : nat * float64) : before a b → ¬ before b a.
Proof.
  intros [Hab | [Hab Hiab]] [Hba | [Hba Hiba]].
  - by eapply ltb_asym.
  - rewrite Hba in Hab. by eapply ltb_irrefl.
  - rewrite Hab in Hba. by eapply ltb_irrefl.
  - lia.
Qed.

End float_order.

Section ranking.

Implicit Types (a b : nat * float64) (l ks order : list (nat * float64)).

Lemma insert_desc_perm a l : pd.insert_desc a l ≡ₚ a :: l.
Proof.
  induction l as [|b l IH]; [done|].
  cbn [pd.insert_desc]. destruct (b.2 >? a.2)%F; [|done].
  rewrite IH. apply Permutation_swap.
Qed.

Lemma insert_desc_sorted a l :
  F.notna a.2 →
  Forall (λ b, F.notna b.2) l →
  Forall (λ b, (a.1 < b.1)%nat) l →
  StronglySorted before l →
  StronglySorted before (pd.insert_desc a l).
Proof.
  intros Ha Hl Hidx Hsorted.
  induction Hsorted as [|b l Hsorted IH Hb]; [by repeat constructor|].
  apply Forall_cons in Hl as [Hbna Hl]. apply Forall_cons in Hidx as [Hab Hidx].
  cbn [pd.insert_desc]. unfold F.gtb. destruct (a.2 <? b.2)%F eqn:Hlt.
  - constructor; [by apply IH|].
    rewrite insert_desc_perm. constructor; [|done].
    left. by rewrite Hlt.
  - assert (before a b) as Hbefore.
    { destruct (ltb_total a.2 b.2) as [H | [H | H]]; [done..| | |].
      + by rewrite Hlt in H.
      + by right.
      + by left. }
    constructor; [by constructor|]. constructor; [done|].
    eapply Forall_impl; [exact Hb|]. intros c Hbc. by eapply before_trans.
Qed.

(** Sorting keys whose columns increase yields the ranking order. *)
Lemma sort_keys ks :
  Forall (λ b, F.notna b.2) ks →
  StronglySorted (λ a b, (a.1 < b.1)%nat) ks →
  foldr pd.insert_desc [] ks ≡ₚ ks ∧
  StronglySorted before (foldr pd.insert_desc [] ks).
Proof.
  intros Hna Hidx.
  induction Hidx as [|a ks Hidx IH Ha]; [by split; constructor|].
  apply Forall_cons in Hna as [Hana Hna].
  destruct (IH Hna) as [Hperm Hsorted]. cbn [foldr]. split.
  - by rewrite insert_desc_perm, Hperm.
  - apply insert_desc_sorted; [done| | |done]; by rewrite Hperm.
Qed.

Lemma imap_keys_increasing (f : nat → nat) (row : list float64) :
  (∀ i j, (i < j)%nat → (f i < f j)%nat) →
  StronglySorted (λ a b, (a.1 < b.1)%nat) (imap (λ i x, (f i, x)) row).
Proof.
  revert f. induction row as [|x row IH]; intros f Hf; [constructor|].
  rewrite imap_cons. constructor.
  - apply (IH (f ∘ S)). intros i j Hij. apply Hf. lia.
  - apply Forall_lookup. intros i [k y]. rewrite list_lookup_imap.
    intros (? & _ & [= -> ->])%fmap_Some. simpl. apply Hf. lia.
Qed.

Lemma keys_defined (row : list float64) :
  Forall (λ x, F.notna x) row →
  pd.keys row = imap pair row ∧ Forall (λ b, F.notna b.2) (imap pair row).
Proof.
  intros Hrow.
  assert (Forall (λ b : nat * float64, F.notna b.2) (imap pair row)) as Hall.
  { apply Forall_lookup. intros i [k y]. rewrite list_lookup_imap.
    intros (x & Hx & [= -> ->])%fmap_Some. simpl.
    rewrite Forall_forall in Hrow. by eapply Hrow, list_elem_of_lookup_2. }
  split; [|done]. unfold pd.keys.
  induction Hall as [|b l Hb _ IH]; [done|].
  by rewrite filter_cons_True, IH.
Qed.

Lemma keys_columns (row : list float64) :
  (imap pair row).*1 = seq 0 (length row).
Proof.
  rewrite fmap_imap. rewrite <-(list_fmap_id (seq 0 (length row))).
  rewrite <-imap_seq_0. apply imap_ext. done.
Qed.

Lemma StronglySorted_lookup_lt l (p q : nat) a b :
  StronglySorted before l → l !! p = Some a → l !! q = Some b → (p < q)%nat →
  before a b.
Proof.
  intros Hsorted. revert p q.
  induction Hsorted as [|c l _ IH Hc]; intros p q Hp Hq Hpq; [done|].
  destruct p as [|p], q as [|q]; try lia.
  - injection Hp as <-. rewrite Forall_forall in Hc.
    by eapply Hc, list_elem_of_lookup_2.
  - apply (IH p q); [done..|lia].
Qed.

Lemma position_lookup order (p j : nat) (v : float64) :
  NoDup order.*1 → order !! p = Some (j, v) → pd.position j order = Some p.
Proof.
  intros Hnodup Hp. unfold pd.position.
  assert (list_find (λ b : nat * float64, b.1 = j) order = Some (p, (j, v))) as ->;
    [|done].
  apply list_find_Some. split_and!; [done..|].
  intros q [k w] Hq Hqp Hk. simpl in Hk. subst k.
  assert (q = p); [|lia].
  apply (NoDup_lookup order.*1 q p j Hnodup); by rewrite list_lookup_fmap, ?Hq, ?Hp.
Qed.

End ranking.

Section rank_row.

Context (row : list float64) (Hrow : Forall (λ x, F.notna x) row).

Abbreviation order := (pd.argsort_desc row).
Abbreviation pos := (column_position row).

Lemma argsort_desc_spec :
  order ≡ₚ imap pair row ∧ StronglySorted before order ∧ NoDup order.*1.
Proof.
  destruct (keys_defined row Hrow) as [Hkeys Hna].
  destruct (sort_keys (imap pair row) Hna) as [Hperm Hsorted].
  { apply (imap_keys_increasing id). auto. }
  unfold pd.argsort_desc. rewrite Hkeys.
  split; [done|]. split; [done|].
  rewrite Hperm, keys_columns. apply NoDup_seq.
Qed.

Lemma position_of_column (j : nat) (v : float64) :
  row !! j = Some v →
  ∃ p, order !! p = Some (j, v) ∧ pd.position j order = Some p.
Proof.
  intros Hj. destruct argsort_desc_spec as (Hperm & _ & Hnodup).
  assert ((j, v) ∈ order) as Hin.
  { rewrite Hperm. apply list_elem_of_lookup. exists j.
    by rewrite list_lookup_imap, Hj. }
  apply list_elem_of_lookup in Hin as [p Hp].
  exists p. split; [done|]. by eapply position_lookup.
Qed.

Lemma positions_of_order : pos <$> order.*1 = seq 0 (length order).
Proof.
  destruct argsort_desc_spec as (_ & _ & Hnodup).
  apply list_eq. intros p. rewrite !list_lookup_fmap.
  destruct (order !! p) as [[j v]|] eqn:Hp; simpl.
  - unfold column_position. rewrite (position_lookup order p j v) by done. simpl.
    symmetry. apply lookup_seq_lt. by eapply lookup_lt_Some.
  - symmetry. apply lookup_seq_ge. by apply lookup_ge_None.
Qed.

Lemma positions_permutation : pos <$> seq 0 (length row) ≡ₚ seq 0 (length row).
Proof.
  destruct argsort_desc_spec as (Hperm & _ & _).
  rewrite <-keys_columns at 1. rewrite <-Hperm, positions_of_order.
  by rewrite Hperm, length_imap.
Qed.

Lemma rank_row_positions :
  pd.rank_row row = F.of_nat <$> (S ∘ pos <$> seq 0 (length row)).
Proof.
  unfold pd.rank_row.
  rewrite (imap_seq_0 row (λ j, match pd.position j order with
                               | Some p => F.of_nat (S p)
                               | None => NaN
                               end)).
  rewrite <-list_fmap_compose. apply list_fmap_ext.
  intros i j [-> Hi]%lookup_seq. simpl.
  destruct (lookup_lt_is_Some_2 row i Hi) as [v Hv].
  destruct (position_of_column i v Hv) as (p & _ & Hp).
  unfold column_position. by rewrite Hp.
Qed.

Lemma before_positions (a b : nat) (va vb : float64) :
  row !! a = Some va → row !! b = Some vb →
  before (a, va) (b, vb) → (pos a < pos b)%nat.
Proof.
  intros Ha Hb Hbefore.
  destruct argsort_desc_spec as (_ & Hsorted & _).
  destruct (position_of_column a va Ha) as (p & Hp & Hpa).
  destruct (position_of_column b vb Hb) as (q & Hq & Hqb).
  unfold column_position. rewrite Hpa, Hqb. simpl.
  destruct (lt_eq_lt_dec p q) as [[Hlt | ->] | Hgt]; [done| |].
  - rewrite Hp in Hq. injection Hq as <- <-. by destruct (before_asym _ _ Hbefore).
  - destruct (before_asym _ _ Hbefore).
    by eapply (StronglySorted_lookup_lt order q p).
Qed.

End rank_row.

(** C3. In a period row of [N] signals none of which is missing, the ranks
    given by [_rank_signals] are whole numbers that form a permutation of
    1..N without repetition; a larger signal gets a smaller rank, and among
    equal signals the earlier column gets the smaller rank. *)
Theorem ranks_form_permutation (self : WeightedPortfolioGenerator)
    (signal_df : DataFrame float64) (i : nat) (row : list float64) :
  values (monthly_signal self signal_df) !! i = Some row →
  Forall (λ x, F.notna x) row →
  ∃ ranks : list nat,
    values (_rank_signals self signal_df) !! i = Some (F.of_nat <$> ranks) ∧
    ranks ≡ₚ seq 1 (length row) ∧
    NoDup ranks ∧
    ∀ a b va vb ra rb,
      row !! a = Some va → row !! b = Some vb →
      ranks !! a = Some ra → ranks !! b = Some rb →
      ((vb <? va)%F → (ra < rb)%nat) ∧
      (va = vb → (a < b)%nat → (ra < rb)%nat).
Proof.
  intros Hi Hrow.
  exists (S ∘ column_position row <$> seq 0 (length row)).
  assert (S ∘ column_position row <$> seq 0 (length row) ≡ₚ seq 1 (length row))
    as Hperm.
  { rewrite list_fmap_compose, (positions_permutation row Hrow).
    by rewrite fmap_S_seq. }
  split_and!.
  - unfold _rank_signals, pd.rank_desc_first. cbn [values].
    rewrite list_lookup_fmap, Hi. simpl. f_equal.
    by apply rank_row_positions.
  - done.
  - rewrite Hperm. apply NoDup_seq.
  - intros a b va vb ra rb Ha Hb.
    rewrite !list_lookup_fmap.
    intros (? & [-> _]%lookup_seq & ->)%fmap_Some.
    intros (? & [-> _]%lookup_seq & ->)%fmap_Some. simpl.
    split.
    + intros Hlt. apply ->Nat.succ_lt_mono.
      apply (before_positions row Hrow a b va vb Ha Hb). by left.
    + intros Heq Hab. apply ->Nat.succ_lt_mono.
      apply (before_positions row Hrow a b va vb Ha Hb). by right.
Qed.

Lemma ranks_form_permutation_example :
  ∃ ranks : list nat,
    values (_rank_signals (default_portfolio 252) example_monthly_signal) !! 0%nat
      = Some (F.of_nat <$> ranks) ∧
    ranks ≡ₚ seq 1 3 ∧
    NoDup ranks ∧
    ∀ a b va vb ra rb,
      [F.of_Q (14 # 100); F.of_Q (12 # 100); F.of_Q (5 # 100)] !! a = Some va →
      [F.of_Q (14 # 100); F.of_Q (12 # 100); F.of_Q (5 # 100)] !! b = Some vb →
      ranks !! a = Some ra → ranks !! b = Some rb →
      ((vb <? va)%F → (ra < rb)%nat) ∧
      (va = vb → (a < b)%nat → (ra < rb)%nat).
Proof.
  apply (ranks_form_permutation (default_portfolio 252) example_monthly_signal 0
           [F.of_Q (14 # 100); F.of_Q (12 # 100); F.of_Q (5 # 100)]).
  - by_evaluation.
  - by_evaluation.
Defined.

Example rank_ties_by_column :
  pd.rank_row [F.of_Q (1 # 10); F.of_Q (2 # 10); F.of_Q (1 # 10); F.of_Q (2 # 10); NaN]
    = [F.of_Z 3; F.of_Z 1; F.of_Z 4; F.of_Z 2; NaN].
Proof. by_evaluation. Qed.

(** ** Profit and loss *)

Section shapes.

Implicit Types (r : list float64) (rows : list (list float64)).

Lemma ffill_from_shape (n : nat) last rows :
  length last = n → Forall (λ r, length r = n) rows →
  Forall (λ r, length r = n) (pd.ffill_from last rows) ∧
  length (pd.ffill_from last rows) = length rows.
Proof.
  intros Hlast Hrows. revert last Hlast.
  induction Hrows as [|r rows Hr _ IH]; intros last Hlast; [by split|].
  cbn [pd.ffill_from length].
  assert (length (pd.pad_row last r) = n) as Hpad.
  { unfold pd.pad_row. rewrite length_zip_with. lia. }
  destruct (IH _ Hpad) as [? ?]. split; [by constructor | by f_equal].
Qed.

Lemma ffill_shape (n : nat) rows :
  Forall (λ r, length r = n) rows →
  Forall (λ r, length r = n) (pd.ffill rows) ∧
  length (pd.ffill rows) = length rows.
Proof.
  destruct 1 as [|r rows Hr Hrows]; [by split|].
  cbn [pd.ffill length].
  destruct (ffill_from_shape n r rows Hr Hrows) as [? ?].
  split; [by constructor | by f_equal].
Qed.

Lemma pct_change_shape (prices_df : DataFrame float64) :
  wf_frame prices_df → wf_frame (pd.pct_change prices_df).
Proof.
  intros [Hlen Hrows]. unfold wf_frame, pd.pct_change, pd.shift1.
  cbn [values index]. change (ncols (mkDataFrame _ _ _)) with (ncols prices_df).
  destruct (ffill_shape _ _ Hrows) as [Hfill Hfill_len].
  split.
  - rewrite length_zip_with, length_take. cbn [length]. lia.
  - apply Forall_lookup.
    intros i r (cur & prev & -> & Hcur & Hprev)%lookup_zip_with_Some.
    apply lookup_take_Some in Hprev as [Hprev _].
    unfold pd.pct_row. rewrite length_zip_with.
    rewrite Forall_forall in Hfill.
    rewrite (Hfill cur) by (by eapply list_elem_of_lookup_2).
    destruct i as [|i].
    + injection Hprev as <-. unfold nan_row. rewrite length_replicate. lia.
    + cbn in Hprev. rewrite (Hfill prev) by (by eapply list_elem_of_lookup_2). lia.
Qed.

Lemma bfill_row_length (src : DataFrame float64) (t : Z) :
  Forall (λ r, length r = ncols src) (values src) →
  length (pd.bfill_row src t) = ncols src.
Proof.
  intros Hrows. unfold pd.bfill_row.
  destruct (list_find _ _) as [[k [d r]]|] eqn:Hfind.
  - apply list_find_Some in Hfind as [Hk _].
    apply lookup_zip_with_Some in Hk as (? & ? & [= <- <-] & _ & Hr).
    rewrite Forall_forall in Hrows. by eapply Hrows, list_elem_of_lookup_2.
  - unfold nan_row. by rewrite length_replicate.
Qed.

(** The daily weights of the momentum portfolio have the shape of the
    price table. *)
Lemma daily_weights_shape (cfg : SignalGeneratorConfig) (days : Z)
    (period : pd.Frequency) (split : float64) (prices_df : DataFrame float64) :
  params cfg !! "rolling_avg_days" = Some days →
  ∃ W, generate_weights
         (EqualWeightedPortfolioGenerator
            (mkSignalGenerator MomentumSignalGenerator cfg) period split) prices_df
       = Ok W ∧
     index W = index prices_df ∧ columns W = columns prices_df ∧
     length (values W) = length (index prices_df) ∧
     Forall (λ r, length r = ncols prices_df) (values W).
Proof.
  intros Hdays.
  unfold generate_weights, stages, generate.
  cbn [_signal_generator EqualWeightedPortfolioGenerator __class__ _cfg
       _prices_to_signal MomentumSignalGenerator].
  unfold Momentum_prices_to_signal. rewrite Hdays. cbn [mbind result_bind].
  eexists. split; [reflexivity|]. cbn [daily_weights].
  split; [done|]. split; [done|].
  split; [unfold pd.reindex_bfill; cbn [values]; by rewrite length_fmap|].
  unfold pd.reindex_bfill. cbn [values].
  apply Forall_fmap, Forall_true. intros t. simpl.
  rewrite bfill_row_length; [done|].
  change (ncols (_assign_weights _ _)) with (ncols prices_df).
  unfold EqualWeighted_assign_weights, _assign_longshort, pd.map_cells,
    _rank_signals, pd.rank_desc_first, monthly_signal, pd.resample_first.
  cbn [_assign_weights EqualWeightedPortfolioGenerator values].
  rewrite !Forall_fmap. apply Forall_true. intros b. simpl.
  unfold equal_weights_row, pd.rank_row.
  by rewrite !length_fmap, length_imap, per_column_length.
Qed.

End shapes.

Section compounding.

Implicit Types (r acc : list float64) (rows : list (list float64)).

Lemma dropna_cons (x : float64) (xs : list float64) :
  pd.dropna (x :: xs) = if F.isnan x then pd.dropna xs else x :: pd.dropna xs.
Proof.
  unfold pd.dropna. rewrite filter_cons. by destruct x.
Qed.

(** A cell of [cumprod_from]: NaN where the input is NaN, otherwise the
    running product of the defined cells of its column so far. *)
Lemma cumprod_from_cell rows acc (i j : nat) r (x a : float64) :
  Forall (λ r, length r = length acc) rows →
  rows !! i = Some r → r !! j = Some x → acc !! j = Some a →
  pd.cumprod_from acc rows !! i ≫= (.!! j)
    = Some (if F.isnan x then NaN
            else foldl F.mul a (pd.dropna (take (S i) (column j rows)))).
Proof.
  intros Hrows. revert acc i a Hrows.
  induction rows as [|r0 rows IH]; intros acc i a Hrows Hi Hj Ha; [done|].
  apply Forall_cons in Hrows as [Hr0 Hrows].
  destruct (lookup_lt_is_Some_2 r0 j) as [x0 Hx0].
  { rewrite Hr0. by eapply lookup_lt_Some. }
  set (acc' := pd.cumprod_step acc r0).
  assert (acc' !! j = Some (if F.isnan x0 then a else (a * x0)%F)) as Hacc'.
  { unfold acc', pd.cumprod_step. apply lookup_zip_with_Some. by exists a, x0. }
  assert (length acc' = length acc) as Hlen'.
  { unfold acc', pd.cumprod_step. rewrite length_zip_with. lia. }
  cbn [pd.cumprod_from]. fold acc'.
  change (column j (r0 :: rows)) with (default NaN (r0 !! j) :: column j rows).
  rewrite Hx0. cbn [default].
  destruct i as [|i].
  - injection Hi as ->. rewrite Hx0 in Hj. injection Hj as ->.
    cbn [lookup list_lookup mbind option_bind].
    rewrite firstn_cons, take_0, dropna_cons.
    unfold pd.cumprod_out. apply lookup_zip_with_Some.
    eexists _, _. split; [|by split].
    by destruct x.
  - change ((pd.cumprod_out acc' r0 :: pd.cumprod_from acc' rows) !! S i)
      with (pd.cumprod_from acc' rows !! i).
    change ((r0 :: rows) !! S i) with (rows !! i) in Hi.
    rewrite (IH acc' i (if F.isnan x0 then a else (a * x0)%F));
      [|by rewrite Hlen'|done..].
    f_equal. rewrite firstn_cons, dropna_cons. unfold id.
    by destruct (F.isnan x0).
Qed.

End compounding.

Example two_month_pnls :
  execute two_month_backtest = Ok (two_month_asset_pnls, two_month_total_pnl).
Proof. by_evaluation. Qed.

(** On the two-month prices the first percent change is undefined, so the
    full product of asset A's factors up to the second day is undefined,
    while its PnL there is 1/10.  Leaving undefined factors out of the product
    does not rescue the first row: the PnL of asset A is undefined there,
    not the empty product minus 1.  The first day's total PnL is 0 although
    the asset PnLs of that day are undefined. *)
Lemma pnl_skips_undefined_returns :
  let factors :=
    growth_factors two_month_prices (daily_weights two_month_stages) in
  cell two_month_asset_pnls 1 0 = Some (F.of_Q (1 # 10)) ∧
  product (factors_until factors 1 0) = NaN ∧
  cell two_month_asset_pnls 0 0 = Some NaN ∧
  (product (pd.dropna (factors_until factors 0 0)) - F.one)%F = F.of_Z 0 ∧
  s_values two_month_total_pnl !! 0%nat = Some (F.of_Z 0) ∧
  pd.fsum [NaN; NaN] = NaN ∧
  ¬ pnl_is_full_product two_month_backtest.
Proof.
  intros factors. split_and!; [by_evaluation..|].
  intros Hclaim.
  destruct (Hclaim (daily_weights two_month_stages) two_month_asset_pnls
              two_month_total_pnl) as [Hasset _].
  - by_evaluation.
  - exact two_month_pnls.
  - specialize (Hasset 1%nat 0%nat (F.of_Q (1 # 10)) eq_refl).
    revert Hasset. apply (bool_decide_unpack (_ ≠ _)). vm_compute. exact I.
Qed.

Lemma cell_map_cells {A B} (f : A → B) (df : DataFrame A) (i j : nat) :
  cell (pd.map_cells f df) i j = f <$> cell df i j.
Proof.
  unfold cell, pd.map_cells. cbn [values]. rewrite list_lookup_fmap.
  destruct (values df !! i) as [r|]; [simpl|done]. by rewrite list_lookup_fmap.
Qed.

Lemma growth_factors_shape (prices_df W : DataFrame float64) :
  wf_frame prices_df →
  length (values W) = length (index prices_df) →
  Forall (λ r, length r = ncols prices_df) (values W) →
  length (values (growth_factors prices_df W)) = length (index prices_df) ∧
  Forall (λ r, length r = ncols prices_df) (values (growth_factors prices_df W)).
Proof.
  intros Hwf HWlen HWrows.
  destruct (pct_change_shape prices_df Hwf) as [HPlen HProws].
  change (index (pd.pct_change prices_df)) with (index prices_df) in HPlen.
  change (ncols (pd.pct_change prices_df)) with (ncols prices_df) in HProws.
  unfold growth_factors, pd.map_cells, pd.zip_cells. cbn [values]. split.
  - rewrite length_fmap, length_zip_with. lia.
  - rewrite Forall_fmap. apply Forall_lookup.
    intros i r (w & p & -> & Hw & Hp)%lookup_zip_with_Some. simpl.
    rewrite length_fmap, length_zip_with.
    rewrite Forall_forall in HWrows, HProws.
    rewrite (HWrows w), (HProws p) by (by eapply list_elem_of_lookup_2). lia.
Qed.

(** C1 (amended). For the daily weights [W] produced by [generate_weights]
    on a well-formed price table, with factors [1 + W * r]: an asset PnL cell
    is undefined where its factor is undefined (as on the first row, where
    [r] is undefined), and otherwise it is the product of the defined
    factors of its column up to its row, minus 1; the total PnL of a row is
    the sum of its defined asset PnLs (0 when none is defined). *)
Theorem pnl_compounds_defined_returns (cfg : SignalGeneratorConfig) (days : Z)
    (period : pd.Frequency) (split : float64) (prices_df : DataFrame float64) :
  params cfg !! "rolling_avg_days" = Some days →
  wf_frame prices_df →
  let generator :=
    EqualWeightedPortfolioGenerator
      (mkSignalGenerator MomentumSignalGenerator cfg) period split in
  ∃ W asset_pnls total_pnl,
    generate_weights generator prices_df = Ok W ∧
    execute (mkWeightedPortfolioBacktester generator prices_df)
      = Ok (asset_pnls, total_pnl) ∧
    let factors := growth_factors prices_df W in
    index asset_pnls = index prices_df ∧
    s_index total_pnl = index prices_df ∧
    length (values factors) = length (index prices_df) ∧
    Forall (λ r, length r = ncols prices_df) (values factors) ∧
    (∀ t a x, cell factors t a = Some x →
       cell asset_pnls t a
         = Some (if F.isnan x then NaN
                 else (product (pd.dropna (factors_until factors t a)) - F.one)%F)) ∧
    (∀ t row, values asset_pnls !! t = Some row →
       s_values total_pnl !! t = Some (pd.fsum (pd.dropna row))).
Proof.
  intros Hdays Hwf generator. subst generator.
  destruct (daily_weights_shape cfg days period split prices_df Hdays)
    as (W & HW & Hidx & Hcols & HWlen & HWrows).
  set (self := mkWeightedPortfolioBacktester _ prices_df).
  exists W, (_get_pnls self W).1, (_get_pnls self W).2.
  split; [exact HW|]. split.
  { unfold execute. cbn [_portfolio_generator _prices_df self]. by rewrite HW. }
  destruct (growth_factors_shape prices_df W Hwf HWlen HWrows) as [HFlen HFrows].
  cbn zeta. split; [exact Hidx|]. split; [exact Hidx|].
  split; [done|]. split; [done|]. split.
  - intros t a x Hx.
    unfold _get_pnls. cbn [fst]. change (_prices_df self) with prices_df.
    fold (growth_factors prices_df W).
    rewrite cell_map_cells. unfold cell in Hx |- *.
    destruct (values (growth_factors prices_df W) !! t) as [r|] eqn:Hr;
      [simpl in Hx|done].
    unfold pd.cumprod. cbn [values].
    assert (ncols (growth_factors prices_df W) = ncols prices_df) as ->.
    { change (ncols (growth_factors prices_df W)) with (ncols W).
      unfold ncols. by rewrite Hcols. }
    rewrite (cumprod_from_cell _ _ t a r x F.one).
    + simpl. unfold product, factors_until. by destruct (F.isnan x).
    + eapply Forall_impl; [exact HFrows|]. intros r' Hr'. simpl.
      by rewrite length_replicate.
    + done.
    + done.
    + apply lookup_replicate_2.
      rewrite Forall_forall in HFrows.
      rewrite <-(HFrows r) by (by eapply list_elem_of_lookup_2).
      by eapply lookup_lt_Some.
  - intros t row Hrow. unfold _get_pnls in *.
    cbn [fst snd pd.sum_axis1 s_values] in *.
    by rewrite list_lookup_fmap, Hrow.
Qed.

Lemma pnl_compounds_defined_returns_example :
  let generator :=
    EqualWeightedPortfolioGenerator
      (mkSignalGenerator MomentumSignalGenerator (momentum_config 1))
      calendar.M (F.of_Q (1 # 2)) in
  ∃ W asset_pnls total_pnl,
    generate_weights generator two_month_prices = Ok W ∧
    execute (mkWeightedPortfolioBacktester generator two_month_prices)
      = Ok (asset_pnls, total_pnl) ∧
    let factors := growth_factors two_month_prices W in
    index asset_pnls = index two_month_prices ∧
    s_index total_pnl = index two_month_prices ∧
    length (values factors) = length (index two_month_prices) ∧
    Forall (λ r, length r = ncols two_month_prices) (values factors) ∧
    (∀ t a x, cell factors t a = Some x →
       cell asset_pnls t a
         = Some (if F.isnan x then NaN
                 else (product (pd.dropna (factors_until factors t a)) - F.one)%F)) ∧
    (∀ t row, values asset_pnls !! t = Some row →
       s_values total_pnl !! t = Some (pd.fsum (pd.dropna row))).
Proof.
  apply (pnl_compounds_defined_returns (momentum_config 1) 1 calendar.M
           (F.of_Q (1 # 2)) two_month_prices).
  - vm_compute. reflexivity.
  - unfold wf_frame. split; by_evaluation.
Defined.


(** ** Construction of signal generators *)

(** X1. The constructor of a signal generator succeeds exactly when every
    required parameter is a key of the configuration (further keys are
    accepted); otherwise it raises the exception that names the class and
    exactly the required parameters that are missing, at least one. *)
Theorem constructor_checks_required_params (cls : SignalGeneratorClass)
    (cfg : SignalGeneratorConfig) :
  let missing := _required_params cls ∖ dom (params cfg) in
  (new_SignalGenerator cls cfg = Ok (mkSignalGenerator cls cfg) ↔
     _required_params cls ⊆ dom (params cfg)) ∧
  (new_SignalGenerator cls cfg = Raise (Exception (__name__ cls) missing) ↔
     ¬ _required_params cls ⊆ dom (params cfg)) ∧
  (missing ≠ ∅ ↔ ¬ _required_params cls ⊆ dom (params cfg)) ∧
  (∀ k, k ∈ missing ↔ k ∈ _required_params cls ∧ params cfg !! k = None).
Proof.
  intros missing.
  assert (missing = ∅ ↔ _required_params cls ⊆ dom (params cfg)) as Hempty.
  { unfold missing. split.
    - intros Hnone k Hk. destruct (decide (k ∈ dom (params cfg))) as [|Hout]; [done|].
      assert (k ∈ _required_params cls ∖ dom (params cfg)) as Hin
        by (by apply elem_of_difference).
      rewrite Hnone in Hin. by apply not_elem_of_empty in Hin.
    - intros Hsub. apply set_eq. intros k. rewrite elem_of_difference. split.
      + intros [Hk Hout]. destruct Hout. by apply Hsub.
      + by intros ?%not_elem_of_empty. }
  unfold new_SignalGenerator, _validate_config_params.
  cbn [__class__ _cfg]. fold missing.
  split_and!.
  - destruct (decide (missing = ∅)) as [H|H]; cbn [mbind result_bind].
    + split; [intros _; by apply Hempty | done].
    + split; [done | intros H'; by apply Hempty in H'].
  - destruct (decide (missing = ∅)) as [H|H]; cbn [mbind result_bind].
    + split; [done | intros H'; destruct H'; by apply Hempty].
    + split; [intros _ H'; by apply Hempty in H' | done].
  - by rewrite Hempty.
  - intros k. unfold missing.
    rewrite elem_of_difference, elem_of_dom, eq_None_not_Some. done.
Qed.



(** ** Reading the price data *)

Section sorting_by_index.

Implicit Types (p q : Z * list float64) (l : list (Z * list float64)).

Lemma insert_by_index_perm p l : insert_by_index p l ≡ₚ p :: l.
Proof.
  induction l as [|q l IH]; [done|].
  cbn [insert_by_index]. destruct (decide _); [done|].
  rewrite IH. apply Permutation_swap.
Qed.

Lemma insert_by_index_sorted p l :
  StronglySorted (λ a b, a.1 ≤ b.1) l →
  StronglySorted (λ a b, a.1 ≤ b.1) (insert_by_index p l).
Proof.
  induction 1 as [|q l Hsorted IH Hq]; [by repeat constructor|].
  cbn [insert_by_index]. destruct (decide (p.1 ≤ q.1)) as [Hle|Hgt].
  - constructor; [by constructor|]. constructor; [done|].
    eapply Forall_impl; [exact Hq|]. intros r Hr. simpl in *. lia.
  - constructor; [done|]. rewrite insert_by_index_perm.
    constructor; [lia|done].
Qed.

Lemma sort_by_index l :
  foldr insert_by_index [] l ≡ₚ l ∧
  StronglySorted (λ a b, a.1 ≤ b.1) (foldr insert_by_index [] l).
Proof.
  induction l as [|p l [IHperm IHsorted]]; [by split; constructor|].
  cbn [foldr]. split.
  - by rewrite insert_by_index_perm, IHperm.
  - by apply insert_by_index_sorted.
Qed.

Lemma sort_by_index_sorted l :
  StronglySorted (λ a b, a.1 ≤ b.1) l → foldr insert_by_index [] l = l.
Proof.
  induction 1 as [|p l Hsorted IH Hp]; [done|].
  cbn [foldr]. rewrite IH. destruct Hp as [|q l Hpq _]; [done|].
  cbn [insert_by_index]. by rewrite decide_True.
Qed.

Lemma sorted_fst l :
  StronglySorted (λ a b, a.1 ≤ b.1) l → StronglySorted Z.le l.*1.
Proof.
  induction 1 as [|p l _ IH Hp]; [constructor|].
  rewrite fmap_cons. constructor; [done|]. by apply Forall_fmap.
Qed.

Lemma sorted_zip (ts : list Z) (rows : list (list float64)) :
  StronglySorted Z.le ts → StronglySorted (λ a b, a.1 ≤ b.1) (zip ts rows).
Proof.
  intros Hts. revert rows.
  induction Hts as [|t ts _ IH Ht]; intros [|r rows]; try constructor.
  - apply IH.
  - apply Forall_forall. intros [t' r'] Hin%elem_of_zip_l.
    rewrite Forall_forall in Ht. simpl. by apply Ht.
Qed.

End sorting_by_index.

(** X3. [read] raises, naming the file, when the loaded index is not a
    datetime index; otherwise it returns the loaded rows in ascending order
    of their timestamps: the same columns, every row still under its own
    timestamp, none dropped or added (equal timestamps are not merged). *)
Theorem read_sorts_by_index (self : DatasetReader) :
  let raw := _read self (_filepath self) in
  match raw_index raw with
  | DatetimeIndex timestamps =>
      ∃ df, read self = Done df ∧
            StronglySorted Z.le (index df) ∧
            columns df = raw_columns raw ∧
            zip (index df) (values df) ≡ₚ zip timestamps (raw_values raw) ∧
            length (index df) = length (values df)
  | ObjectIndex _ => read self = Failed (InvalidIndex (_filepath self))
  end.
Proof.
  intros raw. unfold read. fold raw.
  destruct (raw_index raw) as [timestamps|labels]; [|done].
  eexists. split; [done|]. unfold sort_index. cbn [index columns values].
  destruct (sort_by_index (zip timestamps (raw_values raw))) as [Hperm Hsorted].
  split_and!.
  - by apply sorted_fst.
  - done.
  - by rewrite zip_fst_snd.
  - by rewrite !length_fmap.
Qed.

(** X4. A file whose timestamps already ascend is returned by [read] as it
    was loaded. *)
Theorem read_keeps_sorted_file (self : DatasetReader) (timestamps : list Z) :
  let raw := _read self (_filepath self) in
  raw_index raw = DatetimeIndex timestamps →
  StronglySorted Z.le timestamps →
  length timestamps = length (raw_values raw) →
  read self = Done (mkDataFrame timestamps (raw_columns raw) (raw_values raw)).
Proof.
  intros raw Hindex Hsorted Hlen. unfold read. fold raw. rewrite Hindex.
  unfold sort_index. cbn [index columns values].
  rewrite sort_by_index_sorted by (by apply sorted_zip).
  by rewrite fst_zip, snd_zip by lia.
Qed.

Lemma read_keeps_sorted_file_example :
  read (ExampleCSVDataset
          (λ _, mkRawFrame (DatetimeIndex [10959; 10960; 10961]) ["A"] [[NaN]; [NaN]; [NaN]])
          "prices.csv")
  = Done (mkDataFrame [10959; 10960; 10961] ["A"] [[NaN]; [NaN]; [NaN]]).
Proof.
  apply (read_keeps_sorted_file
           (ExampleCSVDataset
              (λ _, mkRawFrame (DatetimeIndex [10959; 10960; 10961]) ["A"]
                      [[NaN]; [NaN]; [NaN]]) "prices.csv")
           [10959; 10960; 10961]).
  - reflexivity.
  - repeat constructor; lia.
  - reflexivity.
Defined.

Example read_unsorted_file :
  read (ExampleCSVDataset (λ _, unsorted_file) "prices.csv") = Done three_day_prices.
Proof. by_evaluation. Qed.

Example read_undated_file :
  read (ExampleCSVDataset (λ _, undated_file) "prices.csv")
    = Failed (InvalidIndex "prices.csv").
Proof. by_evaluation. Qed.

(** ** Runs with their files *)

Lemma export_saved_tables (s : Stages) :
  _export_intermediary_data (Some (export_data_of s)) = (exported_files s, None).
Proof. destruct s. vm_compute. reflexivity. Qed.

Lemma execute_exporting_run (self : WeightedPortfolioBacktester)
    (previous : option (gmap string Table)) (s : Stages) :
  stages (_portfolio_generator self) (_prices_df self) = Ok s →
  execute_exporting self previous true
    = mkRun (("pnl.png", Figure (_get_pnls self (daily_weights s)).2)
               :: exported_files s)
        (Some (export_data_of s)) None.
Proof.
  intros Hs. unfold execute_exporting, generate_weights_saving.
  rewrite Hs. cbn [mbind result_bind]. by rewrite export_saved_tables.
Qed.

(** X5. A run with [export=True] that computes its tables writes the figure
    and then the four CSV files [momentumSignal.csv], [momentumRanks.csv],
    [LongShortPositions.csv] and [weights.csv], holding the signal, the
    ranks, the long/short positions and the daily weights of this very run,
    whatever an earlier run had saved; [weights.csv] holds the daily weights,
    the period-level weight table is not exported.  The PnL tables are those
    of [_get_pnls] on the daily weights. *)
Theorem execute_exports_current_run (self : WeightedPortfolioBacktester)
    (previous : option (gmap string Table)) (s : Stages) :
  stages (_portfolio_generator self) (_prices_df self) = Ok s →
  execute_exporting self previous true
    = mkRun [("pnl.png", Figure (_get_pnls self (daily_weights s)).2);
             ("momentumSignal.csv", Csv (FloatTable (signal_df s)));
             ("momentumRanks.csv", Csv (FloatTable (rank_df s)));
             ("LongShortPositions.csv", Csv (IntTable (longshort_portfolios s)));
             ("weights.csv", Csv (FloatTable (daily_weights s)))]
        (Some (export_data_of s)) None ∧
  execute self = Ok (_get_pnls self (daily_weights s)) ∧
  generate_weights (_portfolio_generator self) (_prices_df self)
    = Ok (daily_weights s).
Proof.
  intros Hs. split; [by apply execute_exporting_run|].
  unfold execute, generate_weights. rewrite Hs. by cbn [mbind result_bind].
Qed.

Lemma execute_exports_current_run_example :
  execute_exporting two_month_backtest None true
    = mkRun [("pnl.png", Figure (_get_pnls two_month_backtest
                                   (daily_weights two_month_stages)).2);
             ("momentumSignal.csv", Csv (FloatTable (signal_df two_month_stages)));
             ("momentumRanks.csv", Csv (FloatTable (rank_df two_month_stages)));
             ("LongShortPositions.csv",
              Csv (IntTable (longshort_portfolios two_month_stages)));
             ("weights.csv", Csv (FloatTable (daily_weights two_month_stages)))]
        (Some (export_data_of two_month_stages)) None ∧
  execute two_month_backtest
    = Ok (_get_pnls two_month_backtest (daily_weights two_month_stages)) ∧
  generate_weights (_portfolio_generator two_month_backtest)
      (_prices_df two_month_backtest)
    = Ok (daily_weights two_month_stages).
Proof.
  apply (execute_exports_current_run two_month_backtest None two_month_stages).
  exact two_month_run.
Defined.

(** X6. A run with [export=False] writes the figure only and leaves the
    attribute [export_data] as it was; on a generator that never saved its
    tables the attribute is still missing afterwards, and
    [_export_intermediary_data] then raises an attribute error without
    writing any file.  A run whose signal generation raises writes no file at
    all, not even the figure. *)
Theorem execute_without_export (self : WeightedPortfolioBacktester)
    (previous : option (gmap string Table)) :
  (∀ s, stages (_portfolio_generator self) (_prices_df self) = Ok s →
     execute_exporting self previous false
       = mkRun [("pnl.png", Figure (_get_pnls self (daily_weights s)).2)]
           previous None ∧
     _export_intermediary_data (export_state (execute_exporting self None false))
       = ([], Some (AttributeError "export_data"))) ∧
  (∀ e export, stages (_portfolio_generator self) (_prices_df self) = Raise e →
     execute_exporting self previous export
       = mkRun [] previous (Some (Raised e))).
Proof.
  split.
  - intros s Hs. unfold execute_exporting, generate_weights_saving.
    rewrite Hs. by cbn [mbind result_bind].
  - intros e export He. unfold execute_exporting, generate_weights_saving.
    rewrite He. by cbn [mbind result_bind].
Qed.

Lemma execute_without_export_example :
  execute_exporting two_month_backtest None false
    = mkRun [("pnl.png", Figure two_month_total_pnl)] None None ∧
  _export_intermediary_data
      (export_state (execute_exporting two_month_backtest None false))
    = ([], Some (AttributeError "export_data")).
Proof.
  assert (two_month_total_pnl
          = (_get_pnls two_month_backtest (daily_weights two_month_stages)).2) as ->
    by by_evaluation.
  exact (proj1 (execute_without_export two_month_backtest None)
           two_month_stages two_month_run).
Defined.


Example main_on_undated_file :
  main (λ _, undated_file) "prices.csv"
    = mkRun [] None (Some (InvalidIndex "prices.csv")).
Proof. by_evaluation. Qed.

Example main_on_unsorted_file :
  (files (main (λ _, unsorted_file) "prices.csv")).*1
    = ["pnl.png"; "momentumSignal.csv"; "momentumRanks.csv";
       "LongShortPositions.csv"; "weights.csv"] ∧
  error (main (λ _, unsorted_file) "prices.csv") = None.
Proof. split; by_evaluation. Qed.

(** ** The first row of the PnL tables *)

Section undefined_cells.

Implicit Types (l r acc : list float64).

Lemma all_undefined_zip_with (f : float64 → float64 → float64) l r :
  (∀ x, f x NaN = NaN) → all_undefined r → all_undefined (zip_with f l r).
Proof.
  intros Hf Hr. apply Forall_lookup.
  intros i z (x & y & -> & _ & Hy)%lookup_zip_with_Some.
  eapply Forall_lookup_1 in Hr; [|exact Hy]. by rewrite Hr.
Qed.

Lemma all_undefined_fmap (f : float64 → float64) l :
  f NaN = NaN → all_undefined l → all_undefined (f <$> l).
Proof.
  intros Hf Hl. apply Forall_fmap. eapply Forall_impl; [exact Hl|].
  intros x ->. exact Hf.
Qed.

Lemma all_undefined_cumprod_out acc r :
  all_undefined r → all_undefined (pd.cumprod_out acc r).
Proof.
  intros Hr. apply Forall_lookup.
  intros i z (a & x & -> & _ & Hx)%lookup_zip_with_Some.
  eapply Forall_lookup_1 in Hr; [|exact Hx]. by rewrite Hr.
Qed.

Lemma pct_row_of_undefined l (n : nat) : all_undefined (pd.pct_row l (nan_row n)).
Proof.
  apply Forall_lookup.
  intros i z (c & p & -> & _ & Hp)%lookup_zip_with_Some.
  apply lookup_replicate in Hp as [-> _]. by destruct c.
Qed.

Lemma pct_change_first_row (prices_df : DataFrame float64) (p : list float64) :
  values (pd.pct_change prices_df) !! 0%nat = Some p → all_undefined p.
Proof.
  unfold pd.pct_change, pd.shift1. cbn [values].
  intros (cur & prev & -> & _ & Hprev)%lookup_zip_with_Some.
  apply lookup_take_Some in Hprev as [[= <-] _].
  apply pct_row_of_undefined.
Qed.

Lemma cumprod_from_first acc (rows : list (list float64)) (out : list float64) :
  pd.cumprod_from acc rows !! 0%nat = Some out →
  ∃ f0, rows !! 0%nat = Some f0 ∧
        out = pd.cumprod_out (pd.cumprod_step acc f0) f0.
Proof.
  destruct rows as [|f0 rows]; [done|]. cbn [pd.cumprod_from].
  intros [= <-]. by exists f0.
Qed.

Lemma nansum_all_undefined l : all_undefined l → pd.nansum l = F.zero.
Proof.
  intros Hl. unfold pd.nansum, pd.dropna.
  assert (filter (λ x, F.notna x) l = []) as ->; [|done].
  induction Hl as [|x l -> _ IH]; [done|].
  by rewrite filter_cons_False by (intros []).
Qed.

End undefined_cells.

(** X8. Whatever the daily weights, the first row of the asset PnL table is
    undefined for every asset (the first percent change does not exist) and
    the first total PnL is 0: the sum skips the undefined cells. *)
Theorem first_pnl_row (self : WeightedPortfolioBacktester)
    (daily_weights : DataFrame float64) (row : list float64) :
  values (_get_pnls self daily_weights).1 !! 0%nat = Some row →
  all_undefined row ∧
  s_values (_get_pnls self daily_weights).2 !! 0%nat = Some F.zero.
Proof.
  intros Hrow.
  assert (all_undefined row) as Hundef.
  { revert Hrow. unfold _get_pnls, pd.map_cells, pd.zip_cells, pd.cumprod.
    cbn [fst values]. rewrite list_lookup_fmap.
    intros (out & Hout & ->)%fmap_Some.
    apply all_undefined_fmap; [done|].
    apply cumprod_from_first in Hout as (f0 & Hf0 & ->).
    apply all_undefined_cumprod_out.
    rewrite list_lookup_fmap in Hf0.
    apply fmap_Some in Hf0 as (z0 & Hz0 & ->).
    apply lookup_zip_with_Some in Hz0 as (w & p & -> & _ & Hp).
    apply all_undefined_fmap; [done|].
    apply all_undefined_zip_with; [by intros []|].
    by eapply pct_change_first_row. }
  split; [done|].
  unfold _get_pnls in *. cbn [fst snd pd.sum_axis1 s_values] in *.
  rewrite list_lookup_fmap, Hrow. cbn [fmap option_fmap option_map].
  by rewrite nansum_all_undefined.
Qed.

Lemma first_pnl_row_example :
  all_undefined [NaN; NaN] ∧
  s_values (_get_pnls two_month_backtest (daily_weights two_month_stages)).2 !! 0%nat
    = Some F.zero.
Proof.
  apply (first_pnl_row two_month_backtest (daily_weights two_month_stages)).
  by_evaluation.
Defined.

(** ** Sizes and weights of the legs *)

Section leg_sizes.

Lemma filter_all {A} (P : A → Prop) `{!∀ x, Decision (P x)} (l : list A) :
  Forall P l → filter P l = l.
Proof.
  induction 1 as [|x l Hx _ IH]; [done|]. by rewrite filter_cons_True, IH.
Qed.

Lemma filter_none {A} (P : A → Prop) `{!∀ x, Decision (P x)} (l : list A) :
  Forall (λ x, ¬ P x) l → filter P l = [].
Proof.
  induction 1 as [|x l Hx _ IH]; [done|]. by rewrite filter_cons_False.
Qed.

Lemma count_up_to (m N : nat) :
  (m ≤ N)%nat → length (filter (λ k, (k ≤ m)%nat) (seq 1 N)) = m.
Proof.
  intros Hm. replace N with (m + (N - m))%nat by lia.
  rewrite seq_app, filter_app, filter_all, filter_none.
  - rewrite app_nil_r. apply length_seq.
  - apply Forall_seq. intros k Hk. lia.
  - apply Forall_seq. intros k Hk. lia.
Qed.

Lemma leb_Fin (a b : Qc) : (Fin a <=? Fin b)%F ↔ (a ≤ b)%Qc.
Proof.
  unfold F.leb, F.ltb, F.eqb. rewrite orb_True. split.
  - intros [Hlt%bool_decide_unpack | Heq%bool_decide_unpack].
    + by apply Qclt_le_weak.
    + injection Heq as ->. apply Qcle_refl.
  - intros [Hlt | ->]%Qcle_lt_or_eq.
    + left. by apply bool_decide_pack.
    + right. by apply bool_decide_pack.
Qed.

Lemma leg_row_counts (ls : list Z) :
  leg_row ls → (n_long ls + n_short ls = length ls)%nat.
Proof.
  unfold n_long, n_short.
  induction 1 as [|x ls [-> | ->] _ IH].
  - done.
  - rewrite filter_cons_True, filter_cons_False by lia. simpl. lia.
  - rewrite filter_cons_False, filter_cons_True by lia. simpl. lia.
Qed.

Lemma longshort_of_ranks_leg_row (cutoff : float64) (ranks : list float64) :
  leg_row (longshort_cell cutoff <$> ranks).
Proof.
  apply Forall_fmap, Forall_true. intros r. simpl.
  unfold longshort_cell. destruct (_ <=? _)%F; auto.
Qed.

(** The long cells of a full rank row are the ranks up to the cutoff. *)
Lemma n_long_of_ranks (c : Qc) (m N : nat) (ranks : list nat) :
  ranks ≡ₚ seq 1 N → (m ≤ N)%nat →
  (Qc_of_Z (Z.of_nat m) ≤ c)%Qc → (c < Qc_of_Z (Z.of_nat (m + 1)))%Qc →
  n_long (longshort_cell (Fin c) <$> (F.of_nat <$> ranks)) = m.
Proof.
  intros Hperm Hm Hlow Hhigh. unfold n_long.
  rewrite <-list_fmap_compose.
  rewrite (filter_fmap_iff _ (λ k, (k ≤ m)%nat)).
  - rewrite length_fmap, Hperm. by apply count_up_to.
  - apply Forall_true. intros k. simpl. unfold longshort_cell, F.of_nat, F.of_Z.
    destruct (Fin (Qc_of_Z (Z.of_nat k)) <=? Fin c)%F eqn:Hk; cbv iota.
    + split; [intros _|lia].
      assert (Qc_of_Z (Z.of_nat k) ≤ c)%Qc as Hkc by (apply leb_Fin; by rewrite Hk).
      destruct (decide (k ≤ m)%nat) as [|Hgt]; [done|]. exfalso.
      assert (Qc_of_Z (Z.of_nat (m + 1)) ≤ Qc_of_Z (Z.of_nat k))%Qc as Hmk
        by (apply (proj1 (Z2Qc_inj_le _ _)); lia).
      apply (Qclt_not_le _ _ Hhigh). by etrans.
    + split; [lia|]. intros Hkm. exfalso.
      assert (Fin (Qc_of_Z (Z.of_nat k)) <=? Fin c)%F as Hle; [|by rewrite Hk in Hle].
      apply leb_Fin. etrans; [|exact Hlow]. apply (proj1 (Z2Qc_inj_le _ _)). lia.
Qed.

End leg_sizes.

Lemma rank_row_is_permutation (row : list float64) :
  Forall (λ x, F.notna x) row →
  ∃ ranks : list nat,
    pd.rank_row row = F.of_nat <$> ranks ∧ ranks ≡ₚ seq 1 (length row).
Proof.
  intros Hrow. exists (S ∘ column_position row <$> seq 0 (length row)).
  split; [by apply rank_row_positions|].
  rewrite list_fmap_compose, (positions_permutation row Hrow).
  by rewrite fmap_S_seq.
Qed.

Lemma monthly_signal_row_length (self : WeightedPortfolioGenerator)
    (signal_df : DataFrame float64) (i : nat) (row : list float64) :
  values (monthly_signal self signal_df) !! i = Some row →
  length row = ncols signal_df.
Proof.
  unfold monthly_signal, pd.resample_first. cbn [values].
  rewrite list_lookup_fmap. intros (b & _ & ->)%fmap_Some.
  apply per_column_length.
Qed.



Section leg_weights.

Lemma inv_count_le_1 (n : nat) :
  n ≠ 0%nat → (1 / Qc_of_Z (Z.of_nat n) ≤ 1)%Qc.
Proof.
  intros Hn. pose proof (Qc_of_nat_pos n Hn) as Hpos.
  apply (Qcmult_le_mono_pos_r _ _ (Qc_of_Z (Z.of_nat n))); [done|].
  replace (1 / Qc_of_Z (Z.of_nat n) * Qc_of_Z (Z.of_nat n))%Qc with 1%Qc
    by (field; by apply Qc_of_nat_ne_0).
  rewrite Qcmult_1_l, <-Z2Qc_inj_1. apply (proj1 (Z2Qc_inj_le _ _)). lia.
Qed.

Lemma inv_count_gt_0 (n : nat) :
  n ≠ 0%nat → (0 < 1 / Qc_of_Z (Z.of_nat n))%Qc.
Proof.
  intros Hn. unfold Qcdiv. rewrite Qcmult_1_l.
  apply Qcinv_pos, Qc_of_nat_pos, Hn.
Qed.

Lemma n_long_cons_long (ls : list Z) : n_long (1 :: ls) = S (n_long ls).
Proof. unfold n_long. by rewrite filter_cons_True by lia. Qed.

Lemma n_long_cons_short (ls : list Z) : n_long (-1 :: ls) = n_long ls.
Proof. unfold n_long. by rewrite filter_cons_False by lia. Qed.

Lemma n_short_cons_long (ls : list Z) : n_short (1 :: ls) = n_short ls.
Proof. unfold n_short. by rewrite filter_cons_False by lia. Qed.

Lemma n_short_cons_short (ls : list Z) : n_short (-1 :: ls) = S (n_short ls).
Proof. unfold n_short. by rewrite filter_cons_True by lia. Qed.

(** The sum of a row that holds [c] on its long cells and [d] on its short
    cells. *)
Lemma fsum_leg_cells (ls : list Z) (a c d : Qc) :
  leg_row ls →
  foldl F.add (Fin a)
    ((λ x, if bool_decide (0 < x) then Fin c else Fin d) <$> ls)
  = Fin (a + Qc_of_Z (Z.of_nat (n_long ls)) * c
           + Qc_of_Z (Z.of_nat (n_short ls)) * d)%Qc.
Proof.
  intros Hleg. revert a.
  induction Hleg as [|x ls [-> | ->] _ IH]; intros a.
  - cbn [fmap list_fmap foldl]. f_equal.
    change (Z.of_nat (n_long [])) with 0. change (Z.of_nat (n_short [])) with 0.
    rewrite Z2Qc_inj_0. ring.
  - rewrite fmap_cons. cbn [foldl]. rewrite bool_decide_eq_true_2 by lia.
    change (Fin a + Fin c)%F with (Fin (a + c)%Qc). rewrite IH. f_equal.
    rewrite n_long_cons_long, n_short_cons_long, Nat2Z.inj_succ.
    unfold Z.succ. rewrite Z2Qc_inj_add, Z2Qc_inj_1. ring.
  - rewrite fmap_cons. cbn [foldl]. rewrite bool_decide_eq_false_2 by lia.
    change (Fin a + Fin d)%F with (Fin (a + d)%Qc). rewrite IH. f_equal.
    rewrite n_long_cons_short, n_short_cons_short, Nat2Z.inj_succ.
    unfold Z.succ. rewrite Z2Qc_inj_add, Z2Qc_inj_1. ring.
Qed.

End leg_weights.

(** A cell of an equal-weight row, by the leg of its asset. *)
Lemma equal_weights_cell (ls : list Z) (j : nat) (x : Z) :
  leg_row ls →
  ls !! j = Some x →
  ∃ w : Qc,
    equal_weights_row ls !! j = Some (Fin w) ∧
    (x = 1 → w = (1 / Qc_of_Z (Z.of_nat (n_long ls)))%Qc ∧ (0 < w)%Qc ∧ (w ≤ 1)%Qc) ∧
    (x = -1 → w = (- (1 / Qc_of_Z (Z.of_nat (n_short ls))))%Qc ∧
              (w < 0)%Qc ∧ (- 1 ≤ w)%Qc) ∧
    (x = 1 ∨ x = -1).
Proof.
  intros Hleg Hx.
  assert (x ∈ ls) as Hin by (by eapply list_elem_of_lookup_2).
  assert (equal_weights_row ls !! j
          = Some (if bool_decide (0 < x) then Fin (long_weight ls)
                  else Fin (short_weight ls))) as Hcell.
  { rewrite equal_weights_row_cells by done.
    by rewrite list_lookup_fmap, Hx. }
  pose proof Hleg as Hall. unfold leg_row in Hall. rewrite Forall_forall in Hall.
  destruct (Hall x Hin) as [-> | ->].
  - rewrite bool_decide_eq_true_2 in Hcell by lia.
    pose proof (n_long_pos ls 1 Hin ltac:(lia)) as Hn.
    exists (long_weight ls). split; [done|].
    split; [|split; [intros; lia | by left]].
    intros _.
    assert (long_weight ls = 1 / Qc_of_Z (Z.of_nat (n_long ls)))%Qc as ->.
    { unfold long_weight. rewrite Z2Qc_inj_1. ring. }
    split; [done|]. split; [by apply inv_count_gt_0 | by apply inv_count_le_1].
  - rewrite bool_decide_eq_false_2 in Hcell by lia.
    pose proof (n_short_pos ls (-1) Hin ltac:(lia)) as Hn.
    exists (short_weight ls). split; [done|].
    split; [intros; lia|]. split; [|by right].
    intros _.
    assert (short_weight ls = - (1 / Qc_of_Z (Z.of_nat (n_short ls))))%Qc as ->.
    { unfold short_weight.
      assert (Qc_of_Z (-1) = - Qc_of_Z 1)%Qc as -> by (by rewrite <-Z2Qc_inj_opp).
      rewrite Z2Qc_inj_1. ring. }
    split; [done|]. split.
    + apply Qclt_minus_iff.
      replace (0 + - - (1 / Qc_of_Z (Z.of_nat (n_short ls))))%Qc
        with (1 / Qc_of_Z (Z.of_nat (n_short ls)))%Qc by ring.
      by apply inv_count_gt_0.
    + apply Qcopp_le_compat. by apply inv_count_le_1.
Qed.

(** X10. Inside each leg the weights are equal: in a row of the equal-weight
    table every long cell holds [1 / n_long] and every short cell
    [- (1 / n_short)], the counts being those of its own row; so every
    weight is finite, of the sign of its leg, different from zero and at most
    1 in absolute value. *)
Theorem weights_equal_within_leg (longshort : DataFrame Z) (i j : nat)
    (ls : list Z) (x : Z) :
  leg_table longshort →
  values longshort !! i = Some ls →
  ls !! j = Some x →
  ∃ w : Qc,
    cell (EqualWeighted_assign_weights longshort) i j = Some (Fin w) ∧
    (x = 1 → w = (1 / Qc_of_Z (Z.of_nat (n_long ls)))%Qc ∧ (0 < w)%Qc ∧ (w ≤ 1)%Qc) ∧
    (x = -1 → w = (- (1 / Qc_of_Z (Z.of_nat (n_short ls))))%Qc ∧
              (w < 0)%Qc ∧ (- 1 ≤ w)%Qc).
Proof.
  intros Htable Hls Hx.
  assert (leg_row ls) as Hleg by (by eapply Forall_lookup_1 in Htable).
  destruct (equal_weights_cell ls j x Hleg Hx) as (w & Hw & Hlong & Hshort & _).
  exists w. split; [|by split].
  unfold cell.
  rewrite (proj2 (equal_weights_lookup longshort i (equal_weights_row ls)))
    by eauto.
  done.
Qed.

Lemma weights_equal_within_leg_example :
  ∃ w : Qc,
    cell (EqualWeighted_assign_weights example_longshort) 0 1 = Some (Fin w) ∧
    (-1 = 1 → w = (1 / Qc_of_Z (Z.of_nat (n_long [1; -1; -1]%Z)))%Qc
              ∧ (0 < w)%Qc ∧ (w ≤ 1)%Qc) ∧
    (-1 = -1 → w = (- (1 / Qc_of_Z (Z.of_nat (n_short [1; -1; -1]%Z))))%Qc ∧
               (w < 0)%Qc ∧ (- 1 ≤ w)%Qc).
Proof.
  apply (weights_equal_within_leg example_longshort 0 1 [1; -1; -1] (-1)).
  - unfold leg_table, leg_row. by_evaluation.
  - reflexivity.
  - reflexivity.
Defined.

(** X11. A period row with at least one long and one short position is
    dollar neutral: its equal weights sum to 0. *)
Theorem weights_net_to_zero (longshort : DataFrame Z) (i : nat) (ls : list Z) :
  leg_table longshort →
  values longshort !! i = Some ls →
  n_long ls ≠ 0%nat →
  n_short ls ≠ 0%nat →
  ∃ w, values (EqualWeighted_assign_weights longshort) !! i = Some w ∧
       pd.fsum w = F.zero.
Proof.
  intros Htable Hls Hlong Hshort.
  assert (leg_row ls) as Hleg by (by eapply Forall_lookup_1 in Htable).
  exists (equal_weights_row ls). split; [apply equal_weights_lookup; eauto|].
  rewrite equal_weights_row_cells by done. unfold pd.fsum, F.zero.
  rewrite fsum_leg_cells by done.
  rewrite count_times_long_weight, count_times_short_weight by done.
  by_evaluation.
Qed.

Lemma weights_net_to_zero_example :
  ∃ w, values (EqualWeighted_assign_weights example_longshort) !! 0%nat = Some w ∧
       pd.fsum w = F.zero.
Proof.
  apply (weights_net_to_zero example_longshort 0 [1; -1; -1]).
  - unfold leg_table, leg_row. by_evaluation.
  - reflexivity.
  - by_evaluation.
  - by_evaluation.
Defined.

(** ** Days after the last rebalance date *)

Section after_last_rebalance.

Implicit Types (l r acc : list float64).

Lemma bfill_row_after (src : DataFrame float64) (t : Z) :
  Forall (λ d, d < t) (index src) → pd.bfill_row src t = nan_row (ncols src).
Proof.
  intros Hafter. unfold pd.bfill_row.
  destruct (list_find _ _) as [[k [d r]]|] eqn:Hfind; [|done].
  apply list_find_Some in Hfind as (Hk & Hle & _).
  apply lookup_zip_with_Some in Hk as (? & ? & [= <- <-] & Hd & _).
  eapply Forall_lookup_1 in Hafter; [|exact Hd]. simpl in Hle. lia.
Qed.

Lemma all_undefined_nan_row (n : nat) : all_undefined (nan_row n).
Proof. by apply Forall_replicate. Qed.

Lemma all_undefined_zip_with_l (f : float64 → float64 → float64) l r :
  (∀ y, f NaN y = NaN) → all_undefined l → all_undefined (zip_with f l r).
Proof.
  intros Hf Hl. apply Forall_lookup.
  intros i z (x & y & -> & Hx & _)%lookup_zip_with_Some.
  eapply Forall_lookup_1 in Hl; [|exact Hx]. by rewrite Hl.
Qed.

Lemma cumprod_from_lookup acc (rows : list (list float64)) (i : nat) (out : list float64) :
  pd.cumprod_from acc rows !! i = Some out →
  ∃ acc' r, rows !! i = Some r ∧ out = pd.cumprod_out acc' r.
Proof.
  revert acc i. induction rows as [|r0 rows IH]; intros acc [|i]; try done.
  - cbn [pd.cumprod_from]. intros [= <-]. eauto.
  - cbn [pd.cumprod_from]. intros H. by apply IH in H.
Qed.

Lemma cumprod_from_length acc (rows : list (list float64)) :
  length (pd.cumprod_from acc rows) = length rows.
Proof.
  revert acc. induction rows as [|r0 rows IH]; intros acc; [done|].
  cbn [pd.cumprod_from length]. by rewrite IH.
Qed.

End after_last_rebalance.

(** X12. In a run of the momentum, equal-weight backtest on a well-formed
    price table, a day later than every rebalance date (the labels of the
    periods of the price index) has no weights: its daily weights are all
    undefined, so are its asset PnLs, and the total PnL reported for that
    day is 0, whatever was earned before. *)
Theorem no_position_after_last_rebalance (cfg : SignalGeneratorConfig) (days : Z)
    (period : pd.Frequency) (split : float64) (prices_df : DataFrame float64)
    (i : nat) (t : Z) :
  params cfg !! "rolling_avg_days" = Some days →
  wf_frame prices_df →
  index prices_df !! i = Some t →
  Forall (λ d, d < t) (pd.label period <$> pd.bins period (index prices_df)) →
  let generator :=
    EqualWeightedPortfolioGenerator
      (mkSignalGenerator MomentumSignalGenerator cfg) period split in
  ∃ W asset_pnls total_pnl,
    generate_weights generator prices_df = Ok W ∧
    execute (mkWeightedPortfolioBacktester generator prices_df)
      = Ok (asset_pnls, total_pnl) ∧
    values W !! i = Some (nan_row (ncols prices_df)) ∧
    (∃ row, values asset_pnls !! i = Some row ∧ all_undefined row) ∧
    s_values total_pnl !! i = Some F.zero.
Proof.
  intros Hdays Hwf Ht Hafter generator. subst generator.
  destruct (daily_weights_shape cfg days period split prices_df Hdays)
    as (W & HW & _ & _ & HWlen & _).
  set (self := mkWeightedPortfolioBacktester _ prices_df).
  exists W, (_get_pnls self W).1, (_get_pnls self W).2.
  split; [exact HW|]. split.
  { unfold execute. cbn [_portfolio_generator _prices_df self]. by rewrite HW. }
  assert (values W !! i = Some (nan_row (ncols prices_df))) as HWi.
  { revert HW. unfold generate_weights, stages, generate.
    cbn [_signal_generator EqualWeightedPortfolioGenerator __class__ _cfg
         _prices_to_signal MomentumSignalGenerator].
    unfold Momentum_prices_to_signal. rewrite Hdays. cbn [mbind result_bind].
    intros [= <-]. cbn [daily_weights]. unfold pd.reindex_bfill. cbn [values].
    rewrite list_lookup_fmap, Ht. simpl. f_equal.
    by rewrite bfill_row_after. }
  split; [exact HWi|].
  destruct (pct_change_shape prices_df Hwf) as [HPlen _].
  change (index (pd.pct_change prices_df)) with (index prices_df) in HPlen.
  destruct (lookup_lt_is_Some_2 (values (pd.pct_change prices_df)) i) as [p Hp].
  { rewrite HPlen. by eapply lookup_lt_Some. }
  set (rows := values (pd.map_cells (λ x, (F.one + x)%F)
                 (pd.zip_cells F.mul W (pd.pct_change prices_df)))).
  assert (∃ f, rows !! i = Some f ∧ all_undefined f) as (f & Hf & Hundef).
  { assert (zip_with (zip_with F.mul) (values W)
              (values (pd.pct_change prices_df)) !! i
            = Some (zip_with F.mul (nan_row (ncols prices_df)) p)) as Hz.
    { apply lookup_zip_with_Some. eexists _, _. split; [done|]. by split. }
    eexists. split.
    - unfold rows, pd.map_cells, pd.zip_cells. cbn [values].
      rewrite list_lookup_fmap, Hz. reflexivity.
    - apply all_undefined_fmap; [done|].
      apply all_undefined_zip_with_l; [done|]. apply all_undefined_nan_row. }
  assert (∃ row, values (_get_pnls self W).1 !! i = Some row ∧ all_undefined row)
    as (row & Hrow & Hrow_undef).
  { unfold _get_pnls, pd.cumprod. cbn [fst]. change (_prices_df self) with prices_df.
    fold rows. unfold pd.map_cells at 1. cbn [values]. fold rows.
    destruct (lookup_lt_is_Some_2
                (pd.cumprod_from
                   (replicate (ncols (pd.map_cells (λ x, (F.one + x)%F)
                      (pd.zip_cells F.mul W (pd.pct_change prices_df)))) F.one)
                   rows) i) as [out Hout].
    { rewrite cumprod_from_length. by eapply lookup_lt_Some. }
    rewrite list_lookup_fmap, Hout. eexists. split; [reflexivity|].
    apply all_undefined_fmap; [done|].
    apply cumprod_from_lookup in Hout as (acc' & r & Hr & ->).
    apply all_undefined_cumprod_out. congruence. }
  split; [by exists row|].
  unfold _get_pnls in *. cbn [fst snd pd.sum_axis1 s_values] in *.
  rewrite list_lookup_fmap, Hrow. cbn [fmap option_fmap option_map].
  by rewrite nansum_all_undefined.
Qed.

Lemma no_position_after_last_rebalance_example :
  let generator :=
    EqualWeightedPortfolioGenerator
      (mkSignalGenerator MomentumSignalGenerator (momentum_config 1))
      MS (F.of_Q (1 # 2)) in
  ∃ W asset_pnls total_pnl,
    generate_weights generator two_month_prices = Ok W ∧
    execute (mkWeightedPortfolioBacktester generator two_month_prices)
      = Ok (asset_pnls, total_pnl) ∧
    values W !! 4%nat = Some (nan_row (ncols two_month_prices)) ∧
    (∃ row, values asset_pnls !! 4%nat = Some row ∧ all_undefined row) ∧
    s_values total_pnl !! 4%nat = Some F.zero.
Proof.
  apply (no_position_after_last_rebalance (momentum_config 1) 1 MS
           (F.of_Q (1 # 2)) two_month_prices 4 10989).
  - vm_compute. reflexivity.
  - unfold wf_frame. split; by_evaluation.
  - reflexivity.
  - by_evaluation.
Defined.

(** ** Assets without a signal *)

Section missing_signal.

Lemma argsort_desc_perm (row : list float64) : pd.argsort_desc row ≡ₚ pd.keys row.
Proof.
  unfold pd.argsort_desc. induction (pd.keys row) as [|a ks IH]; [done|].
  cbn [foldr]. by rewrite insert_desc_perm, IH.
Qed.

Lemma position_of_missing (row : list float64) (j : nat) :
  row !! j = Some NaN → pd.position j (pd.argsort_desc row) = None.
Proof.
  intros Hj. unfold pd.position.
  assert (list_find (λ p : nat * float64, p.1 = j) (pd.argsort_desc row) = None)
    as ->; [|done].
  apply list_find_None, Forall_forall. intros [k v] Hin Hk. simpl in Hk. subst k.
  rewrite argsort_desc_perm in Hin. unfold pd.keys in Hin.
  apply list_elem_of_filter in Hin as [Hna Hin]. simpl in Hna.
  apply list_elem_of_lookup in Hin as [i Hi].
  rewrite list_lookup_imap in Hi.
  apply fmap_Some in Hi as (x & Hx & [= -> ->]).
  rewrite Hj in Hx. injection Hx as <-. by destruct Hna.
Qed.

Lemma rank_row_missing (row : list float64) (j : nat) :
  row !! j = Some NaN → pd.rank_row row !! j = Some NaN.
Proof.
  intros Hj. unfold pd.rank_row. rewrite list_lookup_imap, Hj. simpl.
  by rewrite position_of_missing.
Qed.

End missing_signal.

(** X13. An asset whose signal is missing at the start of a period keeps a
    missing rank and, as [NaN <= cutoff] is false, is put on the short leg of
    that period, whatever the split and the signals of the other assets. *)
Theorem missing_signal_is_short (self : WeightedPortfolioGenerator)
    (signal_df : DataFrame float64) (i j : nat) (row : Row) :
  values (monthly_signal self signal_df) !! i = Some row →
  row !! j = Some NaN →
  cell (_rank_signals self signal_df) i j = Some NaN ∧
  cell (_assign_longshort self (_rank_signals self signal_df)) i j = Some (-1).
Proof.
  intros Hrow Hj.
  assert (cell (_rank_signals self signal_df) i j = Some NaN) as Hrank.
  { unfold cell, _rank_signals, pd.rank_desc_first. cbn [values].
    rewrite list_lookup_fmap, Hrow. simpl. by apply rank_row_missing. }
  split; [done|].
  unfold _assign_longshort. rewrite cell_map_cells, Hrank. simpl.
  unfold longshort_cell. by rewrite leb_NaN.
Qed.

Lemma missing_signal_is_short_example :
  let signal_df := mkDataFrame [10959] ["A"; "B"] [[NaN; F.of_Z 1]] in
  cell (_rank_signals (default_portfolio 1) signal_df) 0 0 = Some NaN ∧
  cell (_assign_longshort (default_portfolio 1)
          (_rank_signals (default_portfolio 1) signal_df)) 0 0 = Some (-1).
Proof.
  apply (missing_signal_is_short (default_portfolio 1)
           (mkDataFrame [10959] ["A"; "B"] [[NaN; F.of_Z 1]]) 0 0
           [NaN; F.of_Z 1]).
  - by_evaluation.
  - reflexivity.
Defined.

(** ** The signal of a day uses the prices up to that day *)

Section past_prices.

Implicit Types (rows : list (list float64)) (last : list float64).

Lemma ffill_from_take (n : nat) last rows :
  pd.ffill_from last (take n rows) = take n (pd.ffill_from last rows).
Proof.
  revert n last. induction rows as [|r rows IH]; intros [|n] last; try done.
  cbn [take pd.ffill_from]. by rewrite IH.
Qed.

Lemma ffill_take (n : nat) rows : pd.ffill (take n rows) = take n (pd.ffill rows).
Proof.
  destruct rows as [|r rows], n as [|n]; try done.
  cbn [take pd.ffill]. by rewrite ffill_from_take.
Qed.

Lemma shift1_take (m n : nat) rows :
  pd.shift1 m (take n rows) = take n (pd.shift1 m rows).
Proof.
  unfold pd.shift1. rewrite length_take, take_take.
  destruct (n `min` length rows)%nat as [|k] eqn:Hk; [done|].
  cbn [take]. f_equal. rewrite take_take. f_equal. lia.
Qed.

Lemma pct_change_first_rows (n : nat) (df : DataFrame float64) :
  pd.pct_change (first_rows n df) = first_rows n (pd.pct_change df).
Proof.
  unfold pd.pct_change, first_rows. cbn [index columns values].
  change (ncols (mkDataFrame _ _ _)) with (ncols df).
  by rewrite ffill_take, shift1_take, <-zip_with_take.
Qed.

Lemma take_imap {A B} (f : nat → A → B) (n : nat) (l : list A) :
  take n (imap f l) = imap f (take n l).
Proof.
  apply list_eq. intros i. rewrite list_lookup_imap.
  destruct (decide (i < n)%nat).
  - by rewrite !lookup_take_lt, list_lookup_imap by done.
  - by rewrite !lookup_take_ge by lia.
Qed.

Lemma window_rows_take (w : Z) (idx : list Z) rows (n i : nat) (t : Z) :
  (i < n)%nat →
  pd.window_rows w (take n idx) (take n rows) i t = pd.window_rows w idx rows i t.
Proof.
  intros Hi. unfold pd.window_rows.
  rewrite <-zip_with_take, take_take. do 3 f_equal. lia.
Qed.

Lemma rolling_mean_first_rows (w : Z) (n : nat) (df : DataFrame float64) :
  pd.rolling_mean w (first_rows n df) = first_rows n (pd.rolling_mean w df).
Proof.
  unfold pd.rolling_mean, first_rows. cbn [index columns values].
  change (ncols (mkDataFrame _ _ _)) with (ncols df).
  f_equal. rewrite take_imap. apply imap_ext.
  intros i t [_ Hi]%lookup_take_Some. simpl. by rewrite window_rows_take.
Qed.

End past_prices.

(** X14. The momentum signal looks at no future price: on the first [n] rows
    of a price table the signal is the first [n] rows of the signal of the
    whole table, so rows added later never change the signal of a past day. *)
Theorem signal_uses_no_future_prices (cfg : SignalGeneratorConfig)
    (prices_df signal : DataFrame float64) (n : nat) :
  generate (mkSignalGenerator MomentumSignalGenerator cfg) prices_df = Ok signal →
  generate (mkSignalGenerator MomentumSignalGenerator cfg) (first_rows n prices_df)
    = Ok (first_rows n signal).
Proof.
  unfold generate.
  cbn [__class__ _cfg _prices_to_signal MomentumSignalGenerator].
  unfold Momentum_prices_to_signal.
  destruct (params cfg !! "rolling_avg_days") as [window|]; [|done].
  intros [= <-].
  by rewrite pct_change_first_rows, rolling_mean_first_rows.
Qed.

Lemma signal_uses_no_future_prices_example :
  generate (mkSignalGenerator MomentumSignalGenerator (momentum_config 1))
    (first_rows 3 two_month_prices)
  = Ok (first_rows 3 (signal_df two_month_stages)).
Proof.
  apply (signal_uses_no_future_prices (momentum_config 1) two_month_prices
           (signal_df two_month_stages) 3).
  by_evaluation.
Defined.

(** ** Bounds of the daily weights *)

Lemma bfill_row_cases (src : DataFrame float64) (t : Z) :
  pd.bfill_row src t = nan_row (ncols src) ∨
  ∃ k, values src !! k = Some (pd.bfill_row src t).
Proof.
  unfold pd.bfill_row.
  destruct (list_find _ _) as [[k [d r]]|] eqn:Hfind; [right|by left].
  apply list_find_Some in Hfind as [Hk _].
  apply lookup_zip_with_Some in Hk as (? & ? & [= <- <-] & _ & Hr). by exists k.
Qed.

(** X15. Every daily weight of the equal-weight generator, whatever its
    signal generator, is either undefined or a finite number different from
    zero between -1 and 1: no asset is ever left out of the portfolio on a
    day that has weights, and no weight is infinite. *)
Theorem daily_weights_bounded (sg : SignalGenerator) (period : pd.Frequency)
    (split : float64) (prices_df W : DataFrame float64) (i j : nat) (w : float64) :
  generate_weights (EqualWeightedPortfolioGenerator sg period split) prices_df
    = Ok W →
  cell W i j = Some w →
  w = NaN ∨ ∃ q : Qc, w = Fin q ∧ q ≠ 0%Qc ∧ (- 1 ≤ q)%Qc ∧ (q ≤ 1)%Qc.
Proof.
  unfold generate_weights.
  destruct (stages _ prices_df) as [s|e] eqn:Hs; [|done].
  cbn [mbind result_bind]. intros [= <-].
  apply weights_shape in Hs as (_ & _ & Hlegs & Hweights & ->).
  unfold cell, pd.reindex_bfill. cbn [values]. rewrite list_lookup_fmap.
  destruct (index prices_df !! i) as [t|]; [simpl|done].
  destruct (bfill_row_cases (weights s) t) as [-> | [k Hk]].
  - intros [-> _]%lookup_replicate. by left.
  - intros Hw. right. rewrite Hweights in Hk.
    apply equal_weights_lookup in Hk as (ls & Hls & Hrow).
    assert (leg_row ls) as Hleg by (by eapply Forall_lookup_1 in Hlegs).
    rewrite Hweights, Hrow in Hw.
    assert (is_Some (ls !! j)) as [x Hx].
    { apply lookup_lt_is_Some. apply lookup_lt_Some in Hw.
      unfold equal_weights_row in Hw. by rewrite length_fmap in Hw. }
    destruct (equal_weights_cell ls j x Hleg Hx)
      as (q & Hq & Hlong & Hshort & Hcases).
    rewrite Hq in Hw. injection Hw as <-. exists q. split; [done|].
    destruct Hcases as [Hx1 | Hx1].
    + destruct (Hlong Hx1) as (_ & Hpos & Hle). split_and!.
      * by apply not_eq_sym, Qclt_not_eq.
      * apply Qclt_le_weak. eapply Qclt_trans; [|exact Hpos]. done.
      * done.
    + destruct (Hshort Hx1) as (_ & Hneg & Hge). split_and!.
      * by apply Qclt_not_eq.
      * done.
      * apply Qclt_le_weak. eapply Qclt_trans; [exact Hneg|]. done.
Qed.

Lemma daily_weights_bounded_example :
  F.of_Z (-1) = NaN ∨
  ∃ q : Qc, F.of_Z (-1) = Fin q ∧ q ≠ 0%Qc ∧ (- 1 ≤ q)%Qc ∧ (q ≤ 1)%Qc.
Proof.
  apply (daily_weights_bounded (momentum 1) calendar.M (F.of_Q (1 # 2))
           two_month_prices (daily_weights two_month_stages) 3 0 (F.of_Z (-1))).
  - unfold generate_weights. fold (default_portfolio 1).
    by rewrite two_month_run.
  - reflexivity.
Defined.
